(** * free5gc UDR: the SBI server (internal/sbi/server.go)

    A shallow embedding of the SBI server of the UDR network function:
    construction ([NewServer], [bindRouter], [newRouter]), the accept-loop
    task started by [Run], scheme selection ([serve], [unsecureServe],
    [secureServe]) and bounded shutdown ([Shutdown], [shutdownHttpServer]).

    Go pointers are references into a store that is threaded through a small
    state-and-panic monad; calls into net/http, gin, logrus and sync are
    primitives of that monad which record what they were called with. *)

From Stdlib Require Import ZArith List String Ascii Bool Lia DecimalString.
Import ListNotations.
Local Open Scope string_scope.
Local Open Scope list_scope.
Local Open Scope Z_scope.

(** ** Go values *)

(** The values of Go's [error] interface that this file meets.  The two
    sentinels are compared by identity, as [err != http.ErrServerClosed]
    does: an error built by [fmt.Errorf] is never equal to a sentinel, whatever
    its text. *)
Inductive error : Type :=
| ErrServerClosed                 (* http.ErrServerClosed *)
| DeadlineExceeded                (* context.DeadlineExceeded *)
| Errorf (msg : string).          (* fmt.Errorf(...) / errors.New(...) *)

(** A Go [error] variable: [None] is [nil]. *)
Definition go_error := option error.

Definition Error (e : error) : string :=
  match e with
  | ErrServerClosed => "http: Server closed"
  | DeadlineExceeded => "context deadline exceeded"
  | Errorf msg => msg
  end.

(** The [%+v] verb applied to an [error] variable. *)
Definition fmt_v (e : go_error) : string :=
  match e with
  | None => "<nil>"
  | Some e' => Error e'
  end.

(** The [%d] verb applied to an [int]. *)
Definition fmt_d (n : Z) : string := NilZero.string_of_int (Z.to_int n).

Definition is_ErrServerClosed (e : go_error) : bool :=
  match e with
  | Some ErrServerClosed => true
  | _ => false
  end.

(** [time.Duration] counts nanoseconds. *)
Definition Duration := Z.
Definition time_Second : Duration := 1000000000.

(** What a Go [panic] carries. *)
Inductive PanicValue : Type :=
| PanicString (msg : string)      (* panic("...") *)
| PanicLogEntry (msg : string)    (* logrus Panicf: panics with the entry *)
| PanicRuntime (msg : string).    (* run-time panics *)

Definition nilDereference : PanicValue :=
  PanicRuntime "invalid memory address or nil pointer dereference".

(** ** Configuration (pkg/factory) *)

(** Modelled from the spec: the declaration of factory.Config is not among
    the sources.  Section 3 gives ServerConfig as bind host, bind port,
    scheme, TLS cert path and TLS key path, the last two optional with the
    empty string for "unset"; the field names are those that server.go
    reads. *)
Record factory_Tls : Type := { Pem : string; Key : string }.

Record factory_Sbi : Type := {
  Scheme : string;
  BindingIPv4 : string;
  Port : Z;
  Tls : factory_Tls
}.

Record factory_Configuration : Type := { Sbi : factory_Sbi }.

Record factory_Config : Type := { Configuration : factory_Configuration }.

(** ** References *)

(** A value of interface type [Udr] refers to the application object. *)
Definition Udr := nat.
(** [*udr_context.UDRContext]: the security context is an opaque object. *)
Definition udr_context_UDRContext := nat.
(** [*processor.Processor], opaque. *)
Definition processor_Processor := nat.
(** [*Server], [*http.Server] and [*sync.WaitGroup]. *)
Definition ServerPtr := nat.
Definition HttpPtr := nat.
Definition WaitGroupPtr := nat.

(** The object behind a [Udr] value: what its two methods return. *)
Record UdrObject : Type := {
  udrConfig : factory_Config;
  udrContext : udr_context_UDRContext
}.

Definition UdrStore := Udr -> UdrObject.

(** ** gin *)

Module Gin.

Record Request : Type := {
  Method : string;
  Path : string;
  Authorization : string
}.

Record Response : Type := { Status : Z; Body : string }.

(** [gin.Context]: the request, what has been written so far and whether
    [Abort] was called. *)
Record Context : Type := {
  Req : Request;
  Resp : option Response;
  aborted : bool
}.

Definition newContext (r : Request) : Context :=
  {| Req := r; Resp := None; aborted := false |}.

(** [c.JSON(code, body)] *)
Definition JSON (c : Context) (code : Z) (body : string) : Context :=
  {| Req := Req c; Resp := Some {| Status := code; Body := body |};
     aborted := aborted c |}.

(** [c.Abort()] *)
Definition Abort (c : Context) : Context :=
  {| Req := Req c; Resp := Resp c; aborted := true |}.

(** A handler sees the gin context and may read the objects that the
    closures of this package captured. *)
Definition HandlerFunc := UdrStore -> Context -> Context.

(** Which handler a chain element is; the label is not used by
    dispatch, it is what a spy on the handlers would record. *)
Inductive Label : Type :=
| EngineMiddleware (i : nat)
| AuthorizationGate
| DomainHandler (method pattern : string).

Record Handler : Type := { label : Label; func : HandlerFunc }.

Definition HandlersChain := list Handler.

Record RouteEntry : Type := {
  entryMethod : string;
  entryPath : string;
  entryHandlers : HandlersChain
}.

Record Engine : Type := {
  engineHandlers : HandlersChain;
  trees : list RouteEntry
}.

Record RouterGroup : Type := {
  Handlers : HandlersChain;
  basePath : string
}.

(** [group.Use(middleware)] *)
Definition Use (g : RouterGroup) (h : Handler) : RouterGroup :=
  {| Handlers := Handlers g ++ [h]; basePath := basePath g |}.

(** The handlers of a chain run in order until one aborts.  A middleware
    that calls [c.Next()] runs the rest of the chain inside its own call;
    the handlers are entered in the same order, which is what is modelled. *)
Fixpoint runChain (hs : HandlersChain) (st : UdrStore) (c : Context)
  : Context * list Label :=
  match hs with
  | [] => (c, [])
  | h :: tl =>
      if aborted c then (c, [])
      else
        let c' := func h st c in
        let '(c'', ls) := runChain tl st c' in
        (c'', label h :: ls)
  end.

End Gin.

(** ** The server and the store *)

(** [type Server struct { Udr; httpServer; router; processor }].  The three
    pointer fields are [None] when nil. *)
Record Server : Type := {
  Server_Udr : Udr;
  httpServer : option HttpPtr;
  router : option Gin.Engine;
  processor : option processor_Processor
}.

(** What is known here of an [http.Server] made by the wrapper: its
    address and whether [Shutdown] was called on it, and the two other
    arguments the wrapper was given for it, the router and the key-log
    path (the wrapper puts the router behind a handler of its own and the
    key-log file into the TLS configuration; neither is looked at here). *)
Record http_Server : Type := {
  Addr : string;
  Handler : Gin.Engine;
  KeyLogPath : string;
  inShutdown : bool
}.

(** [srv.inShutdown.Store(true)] *)
Definition markShutdown (srv : http_Server) : http_Server :=
  {| Addr := Addr srv; Handler := Handler srv;
     KeyLogPath := KeyLogPath srv; inShutdown := true |}.

(** [context.WithTimeout(context.Background(), d)] *)
Record context_Context : Type := { ctxTimeout : Duration }.

Inductive Logger : Type := SBILog | GinLog.
Inductive Level : Type := InfoLevel | ErrorLevel | PanicLevel.

(** What the package asks of its collaborators, in call order. *)
Inductive Event : Type :=
| EvLog (l : Logger) (lvl : Level) (msg : string)
| EvNewHttp2Server (bindAddr keyLogPath : string)
| EvListenAndServe (srv : HttpPtr)
| EvListenAndServeTLS (srv : HttpPtr) (certFile keyFile : string)
| EvShutdown (srv : HttpPtr) (deadline : Duration)
| EvCancel (ctx : context_Context).

(** The function literal that [Run] starts with [go]: it captures the
    receiver and the wait group. *)
Inductive Task : Type :=
| AcceptLoopTask (s : ServerPtr) (wg : WaitGroupPtr).

Record World : Type := {
  udrStore : UdrStore;
  servers : list Server;
  httpServers : list http_Server;
  waitGroups : list Z;
  goroutines : list Task;
  trace : list Event
}.

Definition with_servers (w : World) (x : list Server) : World :=
  {| udrStore := udrStore w; servers := x; httpServers := httpServers w;
     waitGroups := waitGroups w; goroutines := goroutines w;
     trace := trace w |}.

Definition with_httpServers (w : World) (x : list http_Server) : World :=
  {| udrStore := udrStore w; servers := servers w; httpServers := x;
     waitGroups := waitGroups w; goroutines := goroutines w;
     trace := trace w |}.

Definition with_waitGroups (w : World) (x : list Z) : World :=
  {| udrStore := udrStore w; servers := servers w;
     httpServers := httpServers w; waitGroups := x;
     goroutines := goroutines w; trace := trace w |}.

Definition with_goroutines (w : World) (x : list Task) : World :=
  {| udrStore := udrStore w; servers := servers w;
     httpServers := httpServers w; waitGroups := waitGroups w;
     goroutines := x; trace := trace w |}.

Definition with_trace (w : World) (x : list Event) : World :=
  {| udrStore := udrStore w; servers := servers w;
     httpServers := httpServers w; waitGroups := waitGroups w;
     goroutines := goroutines w; trace := x |}.

(** Writing through a pointer: the cell at [p] is replaced; a pointer
    outside the store is never written (the callers dereference first). *)
Fixpoint store_set {A : Type} (h : list A) (p : nat) (a : A) : list A :=
  match h, p with
  | [], _ => []
  | _ :: t, O => a :: t
  | x :: t, S p' => x :: store_set t p' a
  end.

(** ** The monad *)

Inductive Outcome (A : Type) : Type :=
| Ret (a : A)
| Panic (v : PanicValue).
Arguments Ret {A} a.
Arguments Panic {A} v.

Definition M (A : Type) : Type := World -> Outcome A * World.

Definition ret {A : Type} (a : A) : M A := fun w => (Ret a, w).

Definition bind {A B : Type} (m : M A) (k : A -> M B) : M B :=
  fun w =>
    match m w with
    | (Ret a, w') => k a w'
    | (Panic v, w') => (Panic v, w')
    end.

Definition panic {A : Type} (v : PanicValue) : M A := fun w => (Panic v, w).

Declare Scope go_scope.
Delimit Scope go_scope with go.
Notation "x <- m ;; k" := (bind m (fun x => k))
  (at level 61, m at next level, right associativity) : go_scope.
Notation "m ;; k" := (bind m (fun _ => k))
  (at level 61, right associativity) : go_scope.
Local Open Scope go_scope.

(** [defer d] in a function whose remaining body is [body]: [d] runs when
    the body returns and also when it panics; the panic then goes on, unless
    [d] panics itself. *)
Definition defer_ {A : Type} (d : M unit) (body : M A) : M A :=
  fun w =>
    match body w with
    | (Ret a, w1) =>
        match d w1 with
        | (Ret _, w2) => (Ret a, w2)
        | (Panic v, w2) => (Panic v, w2)
        end
    | (Panic v, w1) =>
        match d w1 with
        | (Ret _, w2) => (Panic v, w2)
        | (Panic v', w2) => (Panic v', w2)
        end
    end.

Definition emit (e : Event) : M unit :=
  fun w => (Ret tt, with_trace w (trace w ++ [e])).

(** Reading through a pointer; a pointer that refers to nothing is a nil
    dereference. *)
Definition derefServer (s : ServerPtr) : M Server :=
  fun w =>
    match nth_error (servers w) s with
    | Some v => (Ret v, w)
    | None => (Panic nilDereference, w)
    end.

Definition derefHttp (p : HttpPtr) : M http_Server :=
  fun w =>
    match nth_error (httpServers w) p with
    | Some v => (Ret v, w)
    | None => (Panic nilDereference, w)
    end.

Definition allocServer (v : Server) : M ServerPtr :=
  fun w => (Ret (List.length (servers w)), with_servers w (servers w ++ [v])).

Definition allocHttp (v : http_Server) : M HttpPtr :=
  fun w =>
    (Ret (List.length (httpServers w)), with_httpServers w (httpServers w ++ [v])).

Definition writeServer (s : ServerPtr) (f : Server -> Server) : M unit :=
  v <- derefServer s ;;
  fun w => (Ret tt, with_servers w (store_set (servers w) s (f v))).

Definition writeHttp (p : HttpPtr) (f : http_Server -> http_Server) : M unit :=
  v <- derefHttp p ;;
  fun w => (Ret tt, with_httpServers w (store_set (httpServers w) p (f v))).

(** [udr.Config()] and [udr.Context()] *)
Definition Config (udr : Udr) : M factory_Config :=
  fun w => (Ret (udrConfig (udrStore w udr)), w).

Definition Context (udr : Udr) : M udr_context_UDRContext :=
  fun w => (Ret (udrContext (udrStore w udr)), w).

(** logrus: [Info], [Errorf] and [Panicf] on one of the package loggers. *)
Definition log_Info (l : Logger) (msg : string) : M unit :=
  emit (EvLog l InfoLevel msg).

Definition log_Errorf (l : Logger) (msg : string) : M unit :=
  emit (EvLog l ErrorLevel msg).

Definition log_Panicf {A : Type} (l : Logger) (msg : string) : M A :=
  emit (EvLog l PanicLevel msg) ;; panic (PanicLogEntry msg).

(** [wg.Add(delta)]: the counter must not become negative.  [wg.Done()] is
    [wg.Add(-1)]. *)
Definition wg_Add (wg : WaitGroupPtr) (delta : Z) : M unit :=
  fun w =>
    match nth_error (waitGroups w) wg with
    | None => (Panic nilDereference, w)
    | Some n =>
        if n + delta <? 0
        then (Panic (PanicString "sync: negative WaitGroup counter"), w)
        else (Ret tt, with_waitGroups w (store_set (waitGroups w) wg (n + delta)))
    end.

Definition wg_Done (wg : WaitGroupPtr) : M unit := wg_Add wg (-1).

(** The [go] statement: the new task is handed to the scheduler and the
    caller goes on. *)
Definition go (t : Task) : M unit :=
  fun w => (Ret tt, with_goroutines w (goroutines w ++ [t])).

Definition getTrace : M (list Event) := fun w => (Ret (trace w), w).

(** ** Collaborators *)

(** [models.ServiceName]; this package names one of its values. *)
Inductive models_ServiceName : Type :=
| ServiceName_NUDR_DR
| ServiceName_other (name : string).

Inductive AuthorizationDecision : Type :=
| Allow
| Deny (reason : string).

(** Modelled from the spec: the Route type of this package is not among the
    sources.  Section 4.2 speaks of (method, path, handler) entries that the
    processor collaborator supplies. *)
Record Route : Type := {
  Method : string;
  Pattern : string;
  APIFunc : Gin.HandlerFunc
}.

(** Everything server.go takes from outside the file: constants of
    pkg/factory, constructors of other packages, the security policy, and
    what the operating system and the peers make net/http return. *)
Record Env : Type := {
  (* pkg/factory *)
  UdrDefaultCertPemPath : string;
  UdrDefaultPrivateKeyPath : string;
  UdrDrResUriPrefix : string;
  (* processor.NewProcessor(udr) *)
  NewProcessor : Udr -> option processor_Processor;
  (* s.getDataRepositoryRoutes() *)
  getDataRepositoryRoutes : Server -> list Route;
  (* the policy behind the authorization check *)
  AuthorizationCheck :
    models_ServiceName -> udr_context_UDRContext -> Gin.Request ->
    AuthorizationDecision;
  (* logger_util.NewGinWithLogrus: the middleware it puts on the engine *)
  ginLogrusMiddleware : list Gin.HandlerFunc;
  (* gin: joining a group prefix with a relative path, and whether a
     registered path matches a request path *)
  joinPaths : string -> string -> string;
  pathMatch : string -> string -> bool;
  (* httpwrapper.NewHttp2Server(bindAddr, keyLogPath, handler): whether a
     server object comes back, and the error *)
  newHttp2ServerResult : string -> string -> bool * go_error;
  (* net/http: the error that ListenAndServe or ListenAndServeTLS returns
     for a server, be it that of the listen itself (address in use,
     permission denied, bad certificate) or the one that ends the accept
     loop; and the result of Shutdown with a deadline; both given all that
     happened before *)
  acceptLoopResult : HttpPtr -> list Event -> error;
  shutdownResult : HttpPtr -> Duration -> list Event -> go_error
}.

Definition StatusUnauthorized : Z := 401.
Definition StatusNotFound : Z := 404.

Section SBI.

Variable E : Env.

(** *** net/http and httpwrapper *)

(** [httpwrapper.NewHttp2Server]: a server object that comes back is a
    fresh one for the address; the store keeps with it the router and the
    key-log path it was made for.  Nothing listens yet: the wrapper opens
    no socket. *)
Definition NewHttp2Server (bindAddr preMasterSecretLogPath : string)
           (handler : Gin.Engine) : M (option HttpPtr * go_error) :=
  emit (EvNewHttp2Server bindAddr preMasterSecretLogPath) ;;
  match newHttp2ServerResult E bindAddr preMasterSecretLogPath with
  | (true, err) =>
      p <- allocHttp {| Addr := bindAddr; Handler := handler;
                        KeyLogPath := preMasterSecretLogPath;
                        inShutdown := false |} ;;
      ret (Some p, err)
  | (false, err) => ret (None, err)
  end.

(** [srv.ListenAndServe()]: after [Shutdown] the server is not reused and
    the call returns [ErrServerClosed]; otherwise it listens and serves
    until the accept loop ends, always with a non-nil error. *)
Definition ListenAndServe (p : HttpPtr) : M go_error :=
  srv <- derefHttp p ;;
  if inShutdown srv then ret (Some ErrServerClosed)
  else
    emit (EvListenAndServe p) ;;
    h <- getTrace ;;
    ret (Some (acceptLoopResult E p h)).

(** [srv.ListenAndServeTLS(certFile, keyFile)] *)
Definition ListenAndServeTLS (p : HttpPtr) (certFile keyFile : string)
  : M go_error :=
  srv <- derefHttp p ;;
  if inShutdown srv then ret (Some ErrServerClosed)
  else
    emit (EvListenAndServeTLS p certFile keyFile) ;;
    h <- getTrace ;;
    ret (Some (acceptLoopResult E p h)).

(** [srv.Shutdown(ctx)]: marks the server as shut down, closes the
    listeners and waits for the connections to become idle or for the
    deadline of [ctx]; the error is that of the context when the deadline
    comes first. *)
Definition http_Shutdown (p : HttpPtr) (ctx : context_Context) : M go_error :=
  writeHttp p markShutdown ;;
  emit (EvShutdown p (ctxTimeout ctx)) ;;
  h <- getTrace ;;
  ret (shutdownResult E p (ctxTimeout ctx) h).

Definition context_WithTimeout (d : Duration) : context_Context :=
  {| ctxTimeout := d |}.

Definition cancel (ctx : context_Context) : M unit := emit (EvCancel ctx).

(** *** gin engine and groups *)

Fixpoint labelMiddleware (i : nat) (fs : list Gin.HandlerFunc)
  : Gin.HandlersChain :=
  match fs with
  | [] => []
  | f :: tl =>
      {| Gin.label := Gin.EngineMiddleware i; Gin.func := f |}
        :: labelMiddleware (S i) tl
  end.

(** [logger_util.NewGinWithLogrus(log)]: a new engine with the logging
    middleware and no route. *)
Definition NewGinWithLogrus (l : Logger) : Gin.Engine :=
  {| Gin.engineHandlers := labelMiddleware 0 (ginLogrusMiddleware E);
     Gin.trees := [] |}.

(** [router.Group(relativePath)]: the group starts with the handlers of
    the engine. *)
Definition Group (e : Gin.Engine) (relativePath : string) : Gin.RouterGroup :=
  {| Gin.Handlers := Gin.engineHandlers e;
     Gin.basePath := joinPaths E "/" relativePath |}.

(** [group.Handle(method, relativePath, handler)]: the route gets the
    handlers the group has at this moment, then its own.  The group points
    to its engine; here the engine is passed and returned. *)
Definition Handle (e : Gin.Engine) (g : Gin.RouterGroup)
           (httpMethod relativePath : string) (h : Gin.Handler) : Gin.Engine :=
  {| Gin.engineHandlers := Gin.engineHandlers e;
     Gin.trees := Gin.trees e ++
       [ {| Gin.entryMethod := httpMethod;
            Gin.entryPath := joinPaths E (Gin.basePath g) relativePath;
            Gin.entryHandlers := Gin.Handlers g ++ [h] |} ] |}.

Definition entryMatches (r : Gin.Request) (en : Gin.RouteEntry) : bool :=
  String.eqb (Gin.entryMethod en) (Gin.Method r)
  && pathMatch E (Gin.entryPath en) (Gin.Path r).

(** [engine.ServeHTTP]: the first entry that matches method and path
    gets the request; without one the engine handlers run and the answer
    is 404 unless they wrote one. *)
Definition ServeHTTP (e : Gin.Engine) (st : UdrStore) (r : Gin.Request)
  : Gin.Context * list Gin.Label :=
  match find (entryMatches r) (Gin.trees e) with
  | Some en => Gin.runChain (Gin.entryHandlers en) st (Gin.newContext r)
  | None =>
      let '(c, ls) :=
        Gin.runChain (Gin.engineHandlers e) st (Gin.newContext r) in
      match Gin.Resp c with
      | Some _ => (c, ls)
      | None => (Gin.JSON c StatusNotFound "404 page not found", ls)
      end
  end.

(** *** internal/util and the routes of this package *)

Record RouterAuthorizationCheck : Type := { serviceName : models_ServiceName }.

Definition NewRouterAuthorizationCheck (n : models_ServiceName)
  : RouterAuthorizationCheck := {| serviceName := n |}.

(** Modelled from the spec: util.RouterAuthorizationCheck.Check is not
    among the sources.  Section 4.2: check(serviceName, context) gives
    allow or deny(reason); a deny stops the pipeline and its failure
    response (a status indicating unauthorized) is returned without the
    handler being invoked; an allow lets the request go on untouched. *)
Definition Check (rac : RouterAuthorizationCheck) (c : Gin.Context)
           (udrContext : udr_context_UDRContext) : Gin.Context :=
  match AuthorizationCheck E (serviceName rac) udrContext (Gin.Req c) with
  | Allow => c
  | Deny reason => Gin.Abort (Gin.JSON c StatusUnauthorized reason)
  end.

Definition domainHandler (r : Route) : Gin.Handler :=
  {| Gin.label := Gin.DomainHandler (Method r) (Pattern r);
     Gin.func := APIFunc r |}.

(** Modelled from the spec: AddService is not among the sources.
    Section 4.2: it registers the full set of (method, path, handler)
    entries onto the group, in order. *)
Definition AddService (e : Gin.Engine) (group : Gin.RouterGroup)
           (routes : list Route) : Gin.Engine :=
  fold_left
    (fun e' r => Handle e' group (Method r) (Pattern r) (domainHandler r))
    routes e.

(** *** server.go *)

(** The function literal given to [dataRepositoryGroup.Use]:
    [util.NewRouterAuthorizationCheck(models.ServiceName_NUDR_DR).Check(c, s.Context())].
    It captures [s]; the embedded [Udr] of [s] is set when [s] is allocated
    and no function of the package assigns it, so the handler is built from
    that value and asks it for the context at every request. *)
Definition authorizationHandler (udr : Udr) : Gin.Handler :=
  {| Gin.label := Gin.AuthorizationGate;
     Gin.func := fun st c =>
       Check (NewRouterAuthorizationCheck ServiceName_NUDR_DR) c
             (udrContext (st udr)) |}.

Definition newRouter (s : ServerPtr) : M Gin.Engine :=
  let router := NewGinWithLogrus GinLog in
  let dataRepositoryGroup := Group router (UdrDrResUriPrefix E) in
  sv <- derefServer s ;;
  let dataRepositoryGroup :=
    Gin.Use dataRepositoryGroup (authorizationHandler (Server_Udr sv)) in
  let dataRepositoryRoutes := getDataRepositoryRoutes E sv in
  ret (AddService router dataRepositoryGroup dataRepositoryRoutes).

Definition bindRouter (udr : Udr) (router : Gin.Engine)
           (tlsKeyLogPath : string) : M (option HttpPtr * go_error) :=
  cfg <- Config udr ;;
  let sbiConfig := Sbi (Configuration cfg) in
  let bindAddr :=
    (BindingIPv4 sbiConfig ++ ":" ++ fmt_d (Port sbiConfig))%string in
  NewHttp2Server bindAddr tlsKeyLogPath router.

Definition set_router (r : option Gin.Engine) (sv : Server) : Server :=
  {| Server_Udr := Server_Udr sv; httpServer := httpServer sv;
     router := r; processor := processor sv |}.

Definition set_httpServer (h : option HttpPtr) (sv : Server) : Server :=
  {| Server_Udr := Server_Udr sv; httpServer := h;
     router := router sv; processor := processor sv |}.

Definition NewServer (udr : Udr) (tlsKeyLogPath : string) : M ServerPtr :=
  s <- allocServer {| Server_Udr := udr; httpServer := None;
                      router := None; processor := NewProcessor E udr |} ;;
  r <- newRouter s ;;
  writeServer s (set_router (Some r)) ;;
  res <- bindRouter udr r tlsKeyLogPath ;;
  let '(server, err) := res in
  writeServer s (set_httpServer server) ;;
  match err with
  | Some _ =>
      log_Errorf SBILog ("bind Router Error: " ++ fmt_v err)%string ;;
      panic (PanicString "Server initialization failed")
  | None => ret s
  end.

Definition Processor (s : ServerPtr) : M (option processor_Processor) :=
  sv <- derefServer s ;;
  ret (processor sv).

Definition unsecureServe (s : ServerPtr) : M go_error :=
  sv <- derefServer s ;;
  match httpServer sv with
  | None => panic nilDereference
  | Some h => ListenAndServe h
  end.

Definition secureServe (s : ServerPtr) : M go_error :=
  sv <- derefServer s ;;
  cfg <- Config (Server_Udr sv) ;;
  let sbiConfig := Sbi (Configuration cfg) in
  let pemPath := Pem (Tls sbiConfig) in
  let pemPath :=
    if String.eqb pemPath "" then UdrDefaultCertPemPath E else pemPath in
  let keyPath := Key (Tls sbiConfig) in
  let keyPath :=
    if String.eqb keyPath "" then UdrDefaultPrivateKeyPath E else keyPath in
  match httpServer sv with
  | None => panic nilDereference
  | Some h => ListenAndServeTLS h pemPath keyPath
  end.

Definition serve (s : ServerPtr) : M go_error :=
  sv <- derefServer s ;;
  cfg <- Config (Server_Udr sv) ;;
  let sbiConfig := Sbi (Configuration cfg) in
  if String.eqb (Scheme sbiConfig) "http" then unsecureServe s
  else if String.eqb (Scheme sbiConfig) "https" then secureServe s
  else
    ret (Some (Errorf ("invalid SBI scheme: " ++ Scheme sbiConfig)%string)).

(** [Run]: the part that the caller executes. *)
Definition Run (s : ServerPtr) (wg : WaitGroupPtr) : M unit :=
  log_Info SBILog "Starting server..." ;;
  wg_Add wg 1 ;;
  go (AcceptLoopTask s wg).

(** The body of the task that [Run] started, executed by the scheduler. *)
Definition runTask (t : Task) : M unit :=
  match t with
  | AcceptLoopTask s wg =>
      defer_ (wg_Done wg)
        (err <- serve s ;;
         if negb (is_ErrServerClosed err)
         then log_Panicf SBILog
                ("HTTP server setup failed: " ++ fmt_v err)%string
         else ret tt)
  end.

Definition shutdownTimeout : Duration := 2 * time_Second.

Definition shutdownHttpServer (s : ServerPtr) : M unit :=
  sv <- derefServer s ;;
  match httpServer sv with
  | None => ret tt
  | Some h =>
      let shutdownCtx := context_WithTimeout shutdownTimeout in
      defer_ (cancel shutdownCtx)
        (err <- http_Shutdown h shutdownCtx ;;
         match err with
         | Some _ =>
             log_Errorf SBILog
               ("HTTP server shutdown failed: " ++ fmt_v err)%string
         | None => ret tt
         end)
  end.

Definition Shutdown (s : ServerPtr) : M unit := shutdownHttpServer s.

End SBI.

(** ** Observations on a world *)

(** The four lifecycle states of the specification.  The package keeps no
    state variable of its own: a server is [Closed] once [Shutdown] was
    called on its handle, which then accepts nothing and makes every later
    [ListenAndServe] return [ErrServerClosed]. *)
Definition handleClosed (w : World) (s : ServerPtr) : bool :=
  match nth_error (servers w) s with
  | Some sv =>
      match httpServer sv with
      | Some h =>
          match nth_error (httpServers w) h with
          | Some srv => inShutdown srv
          | None => false
          end
      | None => false
      end
  | None => false
  end.

Definition isListen (e : Event) : bool :=
  match e with
  | EvListenAndServe _ | EvListenAndServeTLS _ _ _ => true
  | _ => false
  end.

Definition isShutdown (e : Event) : bool :=
  match e with
  | EvShutdown _ _ => true
  | _ => false
  end.

(** How many sockets were asked for, and how many shutdown attempts were
    made, in a trace. *)
Definition listenCalls (t : list Event) : nat := List.length (filter isListen t).
Definition shutdownCalls (t : list Event) : nat :=
  List.length (filter isShutdown t).

(** [n] calls in sequence. *)
Fixpoint times (n : nat) (m : M unit) : M unit :=
  match n with
  | O => ret tt
  | S k => bind m (fun _ => times k m)
  end.

(** The Sbi section of the configuration that [udr] gives in world [w]. *)
Definition sbiOf (w : World) (udr : Udr) : factory_Sbi :=
  Sbi (Configuration (udrConfig (udrStore w udr))).

(** The address that [bindRouter] computes. *)
Definition bindAddrOf (w : World) (udr : Udr) : string :=
  (BindingIPv4 (sbiOf w udr) ++ ":" ++ fmt_d (Port (sbiOf w udr)))%string.

(** ** What the properties speak of *)

(** [frames proj m]: whatever happens in [m], also a panic, the component
    [proj] of the world is afterwards what it was. *)
Definition frames {X A : Type} (proj : World -> X) (m : M A) : Prop :=
  forall w, proj (snd (m w)) = proj w.

(** A projection of the world that does not see the trace, the http
    servers, the wait groups or the tasks. *)
Definition trace_blind {X : Type} (proj : World -> X) : Prop :=
  forall w t, proj (with_trace w t) = proj w.
Definition http_blind {X : Type} (proj : World -> X) : Prop :=
  forall w h, proj (with_httpServers w h) = proj w.
Definition wg_blind {X : Type} (proj : World -> X) : Prop :=
  forall w g, proj (with_waitGroups w g) = proj w.
Definition go_blind {X : Type} (proj : World -> X) : Prop :=
  forall w g, proj (with_goroutines w g) = proj w.

(** What one shutdown attempt appends to the trace. *)
Definition shutdownEvents (E : Env) (h : HttpPtr) (t : list Event)
  : list Event :=
  let t1 := t ++ [EvShutdown h (2 * time_Second)] in
  [EvShutdown h (2 * time_Second)]
    ++ match shutdownResult E h (2 * time_Second) t1 with
       | Some e =>
           [EvLog SBILog ErrorLevel
                  ("HTTP server shutdown failed: " ++ Error e)%string]
       | None => []
       end
    ++ [EvCancel {| ctxTimeout := 2 * time_Second |}].

(** The router that newRouter builds for the server struct [sv]. *)
Definition routerOf (E : Env) (sv : Server) : Gin.Engine :=
  let router := NewGinWithLogrus E GinLog in
  AddService E router
    (Gin.Use (Group E router (UdrDrResUriPrefix E))
             (authorizationHandler E (Server_Udr sv)))
    (getDataRepositoryRoutes E sv).

(** The server struct as NewServer allocates it, and as it leaves it. *)
Definition allocatedServer (E : Env) (udr : Udr) : Server :=
  {| Server_Udr := udr; httpServer := None; router := None;
     processor := NewProcessor E udr |}.

Definition finishedServer (E : Env) (udr : Udr) (h : option HttpPtr) : Server :=
  {| Server_Udr := udr; httpServer := h;
     router := Some (routerOf E (allocatedServer E udr));
     processor := NewProcessor E udr |}.

(** The world that NewServer leaves behind, whether it returns or panics. *)
Definition afterNewServer (E : Env) (udr : Udr) (k : string) (w : World)
  : World :=
  let addr := bindAddrOf w udr in
  let res := newHttp2ServerResult E addr k in
  {| udrStore := udrStore w;
     servers := servers w ++
       [finishedServer E udr
          (if fst res then Some (List.length (httpServers w)) else None)];
     httpServers :=
       if fst res
       then httpServers w ++
            [ {| Addr := addr; Handler := routerOf E (allocatedServer E udr);
                 KeyLogPath := k; inShutdown := false |} ]
       else httpServers w;
     waitGroups := waitGroups w;
     goroutines := goroutines w;
     trace := trace w ++
       EvNewHttp2Server addr k ::
       match snd res with
       | Some e =>
           [EvLog SBILog ErrorLevel ("bind Router Error: " ++ Error e)%string]
       | None => []
       end |}.

(** The route entry that AddService makes of a route on a group. *)
Definition entryOf (E : Env) (g : Gin.RouterGroup) (r : Route) : Gin.RouteEntry :=
  {| Gin.entryMethod := Method r;
     Gin.entryPath := joinPaths E (Gin.basePath g) (Pattern r);
     Gin.entryHandlers := Gin.Handlers g ++ [domainHandler r] |}.

(** From [w] to [w'] nothing was added to the trace, or one listen call. *)
Definition atMostOneListen (w w' : World) : Prop :=
  trace w' = trace w
  \/ exists ev, isListen ev = true /\ trace w' = trace w ++ [ev].

(** ** A concrete deployment *)

Module Example.

Definition getSubscriptionData : Gin.HandlerFunc :=
  fun _ c => Gin.JSON c 200 "{}".

Definition routes : list Route :=
  [ {| Method := "GET"; Pattern := "/subscription-data/:ueId";
       APIFunc := getSubscriptionData |} ].

(** A request without a token is refused. *)
Definition policy (n : models_ServiceName) (ctx : udr_context_UDRContext)
           (r : Gin.Request) : AuthorizationDecision :=
  if String.eqb (Gin.Authorization r) "" then Deny "missing token" else Allow.

Definition join (a b : string) : string :=
  if String.eqb a "/" then b else (a ++ b)%string.

(** The key-log file cannot be created under /proc. *)
Definition wrapper (bindAddr keyLogPath : string) : bool * go_error :=
  if String.eqb keyLogPath "/proc/keylog"
  then (false, Some (Errorf "create pre-master-secret log [/proc/keylog] fail"))
  else (true, None).

(** [stuck]: a peer keeps a connection busy, so that no shutdown attempt
    drains in time; [acceptEnd]: the error that ends the accept loop. *)
Definition env (stuck : bool) (acceptEnd : error) : Env :=
  {| UdrDefaultCertPemPath := "cert/udr.pem";
     UdrDefaultPrivateKeyPath := "cert/udr.key";
     UdrDrResUriPrefix := "/nudr-dr/v2";
     NewProcessor := fun _ => Some 0%nat;
     getDataRepositoryRoutes := fun _ => routes;
     AuthorizationCheck := policy;
     ginLogrusMiddleware := [fun _ c => c];
     joinPaths := join;
     pathMatch := String.eqb;
     newHttp2ServerResult := wrapper;
     acceptLoopResult := fun _ _ => acceptEnd;
     shutdownResult := fun _ _ _ =>
       if stuck then Some DeadlineExceeded else None |}.

Definition config (scheme pem key : string) : factory_Config :=
  {| Configuration :=
       {| Sbi := {| Scheme := scheme; BindingIPv4 := "127.0.0.4";
                    Port := 8000;
                    Tls := {| Pem := pem; Key := key |} |} |} |}.

(** Before [NewServer]: one application object, one wait group at zero. *)
Definition initial (scheme pem key : string) : World :=
  {| udrStore := fun _ =>
       {| udrConfig := config scheme pem key; udrContext := 0%nat |};
     servers := []; httpServers := []; waitGroups := [0];
     goroutines := []; trace := [] |}.

(** After [NewServer(udr, "")]: the server is at reference 0. *)
Definition constructed (stuck : bool) (acceptEnd : error)
           (scheme pem key : string) : World :=
  snd (NewServer (env stuck acceptEnd) 0%nat "" (initial scheme pem key)).

(** After [Run]: the wait group holds one unit. *)
Definition running (stuck : bool) (acceptEnd : error)
           (scheme pem key : string) : World :=
  snd (Run 0%nat 0%nat (constructed stuck acceptEnd scheme pem key)).

Definition unauthenticated : Gin.Request :=
  {| Gin.Method := "GET";
     Gin.Path := "/nudr-dr/v2/subscription-data/:ueId";
     Gin.Authorization := "" |}.

End Example.

(** * Properties *)

(** ** The store *)

Section StoreFacts.

Context {A : Type}.

Lemma nth_error_alloc (h : list A) (a : A) :
  nth_error (h ++ [a]) (List.length h) = Some a.
Proof.
  induction h as [|x h IH]; simpl; [reflexivity | exact IH].
Qed.


Lemma store_set_same (h : list A) (p : nat) (a v : A) :
  nth_error h p = Some v -> nth_error (store_set h p a) p = Some a.
Proof.
  revert p; induction h as [|x h IH]; intros [|p] H; simpl in *;
    try discriminate; auto.
Qed.


End StoreFacts.

(** ** Frames: what a computation leaves alone *)

Section FrameRules.

Context {X : Type} (proj : World -> X).

Lemma frames_ret {A : Type} (a : A) : frames proj (ret a).
Proof. intro w; reflexivity. Qed.

Lemma frames_panic {A : Type} (v : PanicValue) : frames proj (@panic A v).
Proof. intro w; reflexivity. Qed.

Lemma frames_bind {A B : Type} (m : M A) (k : A -> M B) :
  frames proj m -> (forall a, frames proj (k a)) -> frames proj (bind m k).
Proof.
  intros Hm Hk w. unfold bind.
  specialize (Hm w). destruct (m w) as [[a|v] w1]; simpl in *.
  - rewrite Hk. exact Hm.
  - exact Hm.
Qed.

Lemma frames_defer {A : Type} (d : M unit) (body : M A) :
  frames proj d -> frames proj body -> frames proj (defer_ d body).
Proof.
  intros Hd Hb w. unfold defer_.
  specialize (Hb w). destruct (body w) as [[a|v] w1]; simpl in *;
    specialize (Hd w1); destruct (d w1) as [[u|v'] w2]; simpl in *;
    congruence.
Qed.

Lemma frames_derefServer (s : ServerPtr) : frames proj (derefServer s).
Proof.
  intro w. unfold derefServer. destruct (nth_error (servers w) s); reflexivity.
Qed.

Lemma frames_derefHttp (p : HttpPtr) : frames proj (derefHttp p).
Proof.
  intro w. unfold derefHttp.
  destruct (nth_error (httpServers w) p); reflexivity.
Qed.

Lemma frames_Config (udr : Udr) : frames proj (Config udr).
Proof. intro w; reflexivity. Qed.

Lemma frames_getTrace : frames proj getTrace.
Proof. intro w; reflexivity. Qed.


End FrameRules.

Lemma frames_emit {X : Type} (proj : World -> X) (e : Event) :
  trace_blind proj -> frames proj (emit e).
Proof. intros H w. apply H. Qed.

Lemma frames_writeHttp {X : Type} (proj : World -> X) (p : HttpPtr)
      (f : http_Server -> http_Server) :
  http_blind proj -> frames proj (writeHttp p f).
Proof.
  intros H w. unfold writeHttp, bind, derefHttp.
  destruct (nth_error (httpServers w) p); simpl; [apply H | reflexivity].
Qed.

Lemma frames_wg_Add {X : Type} (proj : World -> X) (wg : WaitGroupPtr)
      (delta : Z) :
  wg_blind proj -> frames proj (wg_Add wg delta).
Proof.
  intros H w. unfold wg_Add.
  destruct (nth_error (waitGroups w) wg) as [n|]; [|reflexivity].
  destruct (n + delta <? 0); simpl; [reflexivity | apply H].
Qed.

Lemma frames_go {X : Type} (proj : World -> X) (t : Task) :
  go_blind proj -> frames proj (go t).
Proof. intros H w. apply H. Qed.

Create HintDb frame.
#[local] Hint Resolve frames_ret frames_panic frames_derefServer
  frames_derefHttp frames_Config frames_getTrace frames_emit frames_writeHttp
  frames_wg_Add frames_go : frame.
#[local] Hint Extern 1 (trace_blind _) => (intros ? ?; reflexivity) : frame.
#[local] Hint Extern 1 (http_blind _) => (intros ? ?; reflexivity) : frame.
#[local] Hint Extern 1 (wg_blind _) => (intros ? ?; reflexivity) : frame.
#[local] Hint Extern 1 (go_blind _) => (intros ? ?; reflexivity) : frame.

(** Walks through a computation built from [bind], [defer_] and case
    distinctions, leaving the primitives to the hint database. *)
Ltac frame_step :=
  match goal with
  | |- frames _ (bind _ _) => apply frames_bind; [ | intro ]
  | |- frames _ (defer_ _ _) => apply frames_defer
  | |- frames _ (match ?x with _ => _ end) => destruct x
  | |- frames _ _ => solve [ auto with frame ]
  end.

Ltac frame := repeat frame_step.

Section Frames.

Variable E : Env.
Context {X : Type} (proj : World -> X).
Hypothesis Htrace : trace_blind proj.
Hypothesis Hhttp : http_blind proj.

Lemma frames_ListenAndServe (p : HttpPtr) :
  frames proj (ListenAndServe E p).
Proof. unfold ListenAndServe. frame. Qed.

Lemma frames_ListenAndServeTLS (p : HttpPtr) (c k : string) :
  frames proj (ListenAndServeTLS E p c k).
Proof. unfold ListenAndServeTLS. frame. Qed.

Lemma frames_http_Shutdown (p : HttpPtr) (ctx : context_Context) :
  frames proj (http_Shutdown E p ctx).
Proof. unfold http_Shutdown. frame. Qed.

Lemma frames_unsecureServe (s : ServerPtr) : frames proj (unsecureServe E s).
Proof. unfold unsecureServe. frame. apply frames_ListenAndServe. Qed.

Lemma frames_secureServe (s : ServerPtr) : frames proj (secureServe E s).
Proof.
  unfold secureServe. frame; cbv zeta; frame;
    apply frames_ListenAndServeTLS.
Qed.

Lemma frames_serve (s : ServerPtr) : frames proj (serve E s).
Proof.
  unfold serve. frame; cbv zeta; frame;
    first [apply frames_unsecureServe | apply frames_secureServe].
Qed.

Lemma frames_Shutdown (s : ServerPtr) : frames proj (Shutdown E s).
Proof.
  unfold Shutdown, shutdownHttpServer, cancel, log_Errorf. frame;
    cbv zeta; frame; apply frames_http_Shutdown.
Qed.

Lemma frames_Processor (s : ServerPtr) : frames proj (Processor s).
Proof. unfold Processor. frame. Qed.

Lemma frames_Run (s : ServerPtr) (wg : WaitGroupPtr) :
  wg_blind proj -> go_blind proj -> frames proj (Run s wg).
Proof. intros Hw Hg. unfold Run, log_Info. frame. Qed.

Lemma frames_runTask (t : Task) : wg_blind proj -> frames proj (runTask E t).
Proof.
  intros Hw. destruct t as [s wg].
  unfold runTask, wg_Done, log_Panicf. frame. apply frames_serve.
Qed.

End Frames.

(** ** Stepping through the primitives *)

Lemma wg_Add_ok (wg : WaitGroupPtr) (delta n : Z) (w : World) :
  nth_error (waitGroups w) wg = Some n -> 0 <= n + delta ->
  wg_Add wg delta w =
  (Ret tt, with_waitGroups w (store_set (waitGroups w) wg (n + delta))).
Proof.
  intros Hn Hpos. unfold wg_Add. rewrite Hn.
  destruct (Z.ltb_spec (n + delta) 0) as [Hneg|_]; [lia | reflexivity].
Qed.

Lemma derefServer_ok (s : ServerPtr) (sv : Server) (w : World) :
  nth_error (servers w) s = Some sv -> derefServer s w = (Ret sv, w).
Proof. intro H. unfold derefServer. rewrite H. reflexivity. Qed.

Lemma derefHttp_ok (p : HttpPtr) (srv : http_Server) (w : World) :
  nth_error (httpServers w) p = Some srv -> derefHttp p w = (Ret srv, w).
Proof. intro H. unfold derefHttp. rewrite H. reflexivity. Qed.

Lemma not_closed_error (err : go_error) :
  err <> Some ErrServerClosed -> is_ErrServerClosed err = false.
Proof.
  destruct err as [[| |msg]|]; simpl; intro H; try reflexivity.
  exfalso; apply H; reflexivity.
Qed.

(** A deferred [wg.Done()] gives one unit back when the function ends,
    by return or by panic. *)
Lemma deferred_Done_releases {A : Type} (wg : WaitGroupPtr) (body : M A)
      (w : World) (m : Z) :
  frames waitGroups body ->
  nth_error (waitGroups w) wg = Some m -> 0 < m ->
  nth_error (waitGroups (snd (defer_ (wg_Done wg) body w))) wg = Some (m - 1).
Proof.
  intros F Hm Hpos. unfold defer_. specialize (F w).
  destruct (body w) as [[a|v] w1]; simpl in F; unfold wg_Done;
    (erewrite wg_Add_ok; [ | rewrite F; exact Hm | lia ]);
    simpl; rewrite F; replace (m - 1) with (m + -1) by lia;
    eapply store_set_same; exact Hm.
Qed.

(** ** The accept-loop task *)

(** A deferred [wg.Done()] does not change how the function ends. *)
Lemma deferred_Done_outcome {A : Type} (wg : WaitGroupPtr) (body : M A)
      (w w1 : World) (o : Outcome A) (n : Z) :
  body w = (o, w1) ->
  nth_error (waitGroups w1) wg = Some n -> 0 < n ->
  defer_ (wg_Done wg) body w
  = (o, with_waitGroups w1 (store_set (waitGroups w1) wg (n + -1))).
Proof.
  intros Hbody Hn Hpos. unfold defer_, wg_Done. rewrite Hbody.
  rewrite (wg_Add_ok wg (-1) n w1 Hn) by lia.
  destruct o; reflexivity.
Qed.

(** C3: whatever error the accept loop returns, the task panics (after
    logging at panic level) when the error is not http.ErrServerClosed, and
    returns without logging anything when it is. *)
Theorem accept_loop_error_escalation
        (E : Env) (s : ServerPtr) (wg : WaitGroupPtr) (w w1 : World)
        (err : go_error) (n : Z) :
  serve E s w = (Ret err, w1) ->
  nth_error (waitGroups w) wg = Some n -> 0 < n ->
  let msg := ("HTTP server setup failed: " ++ fmt_v err)%string in
  (err <> Some ErrServerClosed ->
   exists w2,
     runTask E (AcceptLoopTask s wg) w = (Panic (PanicLogEntry msg), w2)
     /\ trace w2 = trace w1 ++ [EvLog SBILog PanicLevel msg])
  /\ (err = Some ErrServerClosed ->
      exists w2,
        runTask E (AcceptLoopTask s wg) w = (Ret tt, w2)
        /\ trace w2 = trace w1).
Proof.
  intros Hserve Hwg Hn msg.
  assert (Hwg1 : nth_error (waitGroups w1) wg = Some n).
  { pose proof (frames_serve E waitGroups (fun _ _ => eq_refl) s w) as F.
    rewrite Hserve in F. simpl in F. rewrite F. exact Hwg. }
  split; intro Herr.
  - eexists. split.
    + unfold runTask. eapply deferred_Done_outcome; [ | | exact Hn ].
      * unfold bind. rewrite Hserve, (not_closed_error err Herr).
        reflexivity.
      * exact Hwg1.
    + reflexivity.
  - subst err. eexists. split.
    + unfold runTask. eapply deferred_Done_outcome; [ | exact Hwg1 | exact Hn ].
      unfold bind. rewrite Hserve. reflexivity.
    + reflexivity.
Qed.

(** C8: Run logs, adds one unit to the wait group and only then hands the
    accept-loop task to the scheduler, and returns without having run any of
    the task: when the unit cannot be registered Run panics and no task has
    been started.  The task that was started is the accept loop: it runs
    serve, escalates what serve returned, and whenever it runs and however
    it ends gives the unit back once. *)
Theorem Run_registers_one_unit_and_returns
        (E : Env) (s : ServerPtr) (wg : WaitGroupPtr) (w : World) (n : Z) :
  nth_error (waitGroups w) wg = Some n -> 0 <= n ->
  exists w1,
    Run s wg w = (Ret tt, w1)
    /\ nth_error (waitGroups w1) wg = Some (n + 1)
    /\ goroutines w1 = goroutines w ++ [AcceptLoopTask s wg]
    /\ trace w1 = trace w ++ [EvLog SBILog InfoLevel "Starting server..."]
    /\ (forall (w2 : World) (m : Z),
          nth_error (waitGroups w2) wg = Some m -> 0 < m ->
          let w3 := snd (runTask E (AcceptLoopTask s wg) w2) in
          nth_error (waitGroups w3) wg = Some (m - 1)
          /\ goroutines w3 = goroutines w2)
    /\ (forall w0 : World,
          fst (Run s wg w0) <> Ret tt ->
          goroutines (snd (Run s wg w0)) = goroutines w0
          /\ waitGroups (snd (Run s wg w0)) = waitGroups w0)
    /\ (forall (w2 w3 : World) (o : Outcome go_error),
          serve E s w2 = (o, w3) ->
          httpServers (snd (runTask E (AcceptLoopTask s wg) w2)) = httpServers w3
          /\ trace (snd (runTask E (AcceptLoopTask s wg) w2)) =
             trace w3 ++
               match o with
               | Ret err =>
                   if is_ErrServerClosed err then []
                   else [EvLog SBILog PanicLevel
                           ("HTTP server setup failed: " ++ fmt_v err)%string]
               | Panic _ => []
               end).
Proof.
  intros Hwg Hn. eexists. split.
  { unfold Run, log_Info, emit, bind, go.
    erewrite wg_Add_ok; [ reflexivity | exact Hwg | lia ]. }
  cbn [waitGroups goroutines trace with_trace with_waitGroups with_goroutines].
  split; [ eapply store_set_same; exact Hwg | ].
  split; [ reflexivity | ]. split; [ reflexivity | ].
  split; [ | split ].
  - intros w2 m Hm Hpos. split.
    + unfold runTask.
      apply deferred_Done_releases; [ | exact Hm | exact Hpos ].
      unfold log_Panicf. frame. apply frames_serve; intros ? ?; reflexivity.
    + exact (frames_runTask E goroutines (fun _ _ => eq_refl)
               (AcceptLoopTask s wg) (fun _ _ => eq_refl) w2).
  - intros w0. unfold Run, log_Info, emit, bind, go, wg_Add.
    cbn [waitGroups with_trace].
    destruct (nth_error (waitGroups w0) wg) as [c|]; cbn;
      [ | intros _; split; reflexivity ].
    destruct (c + 1 <? 0); cbn; intro Hfail;
      [ split; reflexivity | exfalso; apply Hfail; reflexivity ].
  - intros w2 w3 o Hserve. unfold runTask, defer_, bind. rewrite Hserve.
    unfold wg_Done, wg_Add.
    destruct o as [err|v].
    + destruct (is_ErrServerClosed err); cbn;
        destruct (nth_error (waitGroups w3) wg) as [c|]; cbn;
        try destruct (c + -1 <? 0); cbn;
        rewrite ?app_nil_r; split; reflexivity.
    + cbn. destruct (nth_error (waitGroups w3) wg) as [c|]; cbn;
        try destruct (c + -1 <? 0); cbn;
        rewrite ?app_nil_r; split; reflexivity.
Qed.

(** C9: secureServe, and serving as a whole, leave the stored configuration
    as it was: the defaults for empty certificate and key paths go into
    local variables only. *)
Theorem serving_leaves_configuration_untouched
        (E : Env) (s : ServerPtr) (wg : WaitGroupPtr) (w : World) :
  udrStore (snd (secureServe E s w)) = udrStore w
  /\ (forall udr,
        let cfg' := udrConfig (udrStore (snd (secureServe E s w)) udr) in
        let cfg := udrConfig (udrStore w udr) in
        cfg' = cfg
        /\ Pem (Tls (Sbi (Configuration cfg'))) = Pem (Tls (Sbi (Configuration cfg)))
        /\ Key (Tls (Sbi (Configuration cfg'))) = Key (Tls (Sbi (Configuration cfg))))
  /\ udrStore (snd (unsecureServe E s w)) = udrStore w
  /\ udrStore (snd (serve E s w)) = udrStore w
  /\ udrStore (snd (runTask E (AcceptLoopTask s wg) w)) = udrStore w.
Proof.
  assert (S : udrStore (snd (secureServe E s w)) = udrStore w).
  { apply (frames_secureServe E udrStore); intros ? ?; reflexivity. }
  split; [exact S | ]. split.
  { intros udr cfg' cfg. subst cfg' cfg. rewrite S. repeat split. }
  split; [ apply (frames_unsecureServe E udrStore); intros ? ?; reflexivity | ].
  split; [ apply (frames_serve E udrStore); intros ? ?; reflexivity | ].
  apply (frames_runTask E udrStore); intros ? ?; reflexivity.
Qed.

(** ** Shutdown *)

Lemma store_set_alloc {A : Type} (h : list A) (a b : A) :
  store_set (h ++ [a]) (List.length h) b = h ++ [b].
Proof.
  induction h as [|x h IH]; simpl; [reflexivity | rewrite IH; reflexivity].
Qed.

Lemma Shutdown_on_handle (E : Env) (s : ServerPtr) (sv : Server)
      (h : HttpPtr) (srv : http_Server) (w : World) :
  nth_error (servers w) s = Some sv ->
  httpServer sv = Some h ->
  nth_error (httpServers w) h = Some srv ->
  Shutdown E s w =
  (Ret tt,
   {| udrStore := udrStore w; servers := servers w;
      httpServers := store_set (httpServers w) h (markShutdown srv);
      waitGroups := waitGroups w; goroutines := goroutines w;
      trace := trace w ++ shutdownEvents E h (trace w) |}).
Proof.
  intros Hs Hh Hsrv.
  unfold Shutdown, shutdownHttpServer, bind. rewrite (derefServer_ok _ _ _ Hs).
  rewrite Hh. unfold defer_, bind, http_Shutdown, writeHttp, bind.
  rewrite (derefHttp_ok _ _ _ Hsrv). unfold shutdownEvents.
  cbn.
  match goal with
  | |- context [shutdownResult ?a ?b ?c ?d] =>
      destruct (shutdownResult a b c d) as [e|]
  end; cbn; rewrite <- ?app_assoc; reflexivity.
Qed.

Lemma Shutdown_without_handle (E : Env) (s : ServerPtr) (sv : Server)
      (w : World) :
  nth_error (servers w) s = Some sv ->
  httpServer sv = None ->
  Shutdown E s w = (Ret tt, w).
Proof.
  intros Hs Hh. unfold Shutdown, shutdownHttpServer, bind.
  rewrite (derefServer_ok _ _ _ Hs). rewrite Hh. reflexivity.
Qed.

Lemma shutdownCalls_app (t u : list Event) :
  shutdownCalls (t ++ u) = (shutdownCalls t + shutdownCalls u)%nat.
Proof. unfold shutdownCalls. rewrite filter_app, length_app. reflexivity. Qed.

Lemma shutdownCalls_attempt (E : Env) (h : HttpPtr) (t : list Event) :
  shutdownCalls (shutdownEvents E h t) = 1%nat.
Proof.
  unfold shutdownEvents.
  destruct (shutdownResult E h (2 * time_Second)
              (t ++ [EvShutdown h (2 * time_Second)])); reflexivity.
Qed.

Lemma handleClosed_after_mark (w w' : World) (s : ServerPtr) (sv : Server)
      (h : HttpPtr) (srv : http_Server) :
  nth_error (servers w) s = Some sv ->
  httpServer sv = Some h ->
  nth_error (httpServers w) h = Some srv ->
  servers w' = servers w ->
  httpServers w' = store_set (httpServers w) h (markShutdown srv) ->
  handleClosed w' s = true.
Proof.
  intros Hs Hh Hsrv Es Eh. unfold handleClosed.
  rewrite Es, Hs, Hh, Eh, (store_set_same _ _ _ _ Hsrv). reflexivity.
Qed.

(** C4: on a server that has a handle, Shutdown makes one attempt with a
    deadline of two seconds; whatever that attempt returns, the deadline
    error included, Shutdown returns normally, the error goes to the log at
    error level and nowhere else, and the server is closed. *)
Theorem shutdown_deadline_and_containment
        (E : Env) (s : ServerPtr) (sv : Server) (h : HttpPtr)
        (srv : http_Server) (w : World) :
  nth_error (servers w) s = Some sv ->
  httpServer sv = Some h ->
  nth_error (httpServers w) h = Some srv ->
  let attempt := EvShutdown h 2000000000 in
  let done := EvCancel {| ctxTimeout := 2000000000 |} in
  let result := shutdownResult E h 2000000000 (trace w ++ [attempt]) in
  exists w',
    Shutdown E s w = (Ret tt, w')
    /\ shutdownTimeout = 2 * 1000000000
    /\ (forall e, result = Some e ->
          trace w' =
          trace w ++
            [attempt;
             EvLog SBILog ErrorLevel
                   ("HTTP server shutdown failed: " ++ Error e)%string;
             done])
    /\ (result = None -> trace w' = trace w ++ [attempt; done])
    /\ shutdownCalls (trace w') = S (shutdownCalls (trace w))
    /\ handleClosed w' s = true.
Proof.
  intros Hs Hh Hsrv attempt done result.
  eexists. split; [ exact (Shutdown_on_handle E s sv h srv w Hs Hh Hsrv) | ].
  split; [ reflexivity | ].
  cbn [trace]. split; [ | split; [ | split ] ].
  - intros e He. unfold shutdownEvents.
    change (2 * time_Second) with 2000000000. fold attempt. fold result.
    rewrite He. reflexivity.
  - intros He. unfold shutdownEvents.
    change (2 * time_Second) with 2000000000. fold attempt. fold result.
    rewrite He. reflexivity.
  - rewrite shutdownCalls_app, shutdownCalls_attempt. lia.
  - eapply handleClosed_after_mark; eauto.
Qed.

Lemma times_Shutdown_on_handle (E : Env) (s : ServerPtr) (sv : Server)
      (h : HttpPtr) (n : nat) :
  forall w : World,
    nth_error (servers w) s = Some sv ->
    httpServer sv = Some h ->
    nth_error (httpServers w) h <> None ->
    exists w',
      times n (Shutdown E s) w = (Ret tt, w')
      /\ servers w' = servers w
      /\ nth_error (httpServers w') h <> None
      /\ shutdownCalls (trace w') = (shutdownCalls (trace w) + n)%nat
      /\ ((0 < n)%nat -> handleClosed w' s = true)
      /\ (handleClosed w s = true -> handleClosed w' s = true).
Proof.
  induction n as [|n IH]; intros w Hs Hh Hsrv.
  - exists w. repeat split; auto; try lia.
  - destruct (nth_error (httpServers w) h) as [srv|] eqn:Esrv;
      [ clear Hsrv | congruence ].
    pose proof (Shutdown_on_handle E s sv h srv w Hs Hh Esrv) as Hstep.
    set (w1 := {| udrStore := udrStore w; servers := servers w;
                  httpServers := store_set (httpServers w) h (markShutdown srv);
                  waitGroups := waitGroups w; goroutines := goroutines w;
                  trace := trace w ++ shutdownEvents E h (trace w) |}) in *.
    assert (Hc1 : handleClosed w1 s = true)
      by (eapply handleClosed_after_mark; eauto).
    assert (Hsrv1 : nth_error (httpServers w1) h <> None).
    { cbn [w1 httpServers]. rewrite (store_set_same _ _ _ _ Esrv). discriminate. }
    destruct (IH w1 Hs Hh Hsrv1) as (w' & Hrun & Es & Eh & Ec & Hpos & Hkeep).
    exists w'. cbn [times]. unfold bind. rewrite Hstep.
    split; [ exact Hrun | ]. split; [ exact Es | ]. split; [ exact Eh | ].
    split.
    { rewrite Ec. cbn [w1 trace].
      rewrite shutdownCalls_app, shutdownCalls_attempt. lia. }
    split; intros _; apply Hkeep; exact Hc1.
Qed.

Lemma times_Shutdown_without_handle (E : Env) (s : ServerPtr) (sv : Server)
      (w : World) (n : nat) :
  nth_error (servers w) s = Some sv ->
  httpServer sv = None ->
  times n (Shutdown E s) w = (Ret tt, w).
Proof.
  intros Hs Hh. induction n as [|n IH]; [ reflexivity | ].
  cbn [times]. unfold bind.
  rewrite (Shutdown_without_handle E s sv w Hs Hh). exact IH.
Qed.

(** C5, as the code has it: any number of Shutdown calls in sequence is
    safe, none panics and none returns an error; without a handle every
    call leaves the world as it is; with a handle every call is one more
    shutdown attempt on it, the first closes the server and it stays
    closed. *)
Theorem Shutdown_repeated_is_safe
        (E : Env) (s : ServerPtr) (sv : Server) (w : World) (n : nat) :
  nth_error (servers w) s = Some sv ->
  (forall h, httpServer sv = Some h -> nth_error (httpServers w) h <> None) ->
  exists w',
    times n (Shutdown E s) w = (Ret tt, w')
    /\ (httpServer sv = None -> w' = w)
    /\ (httpServer sv <> None ->
        shutdownCalls (trace w') = (shutdownCalls (trace w) + n)%nat
        /\ ((0 < n)%nat -> handleClosed w' s = true))
    /\ (handleClosed w s = true -> handleClosed w' s = true)
    /\ servers w' = servers w.
Proof.
  intros Hs Hvalid. destruct (httpServer sv) as [h|] eqn:Hh.
  - destruct (times_Shutdown_on_handle E s sv h n w Hs Hh (Hvalid h eq_refl))
      as (w' & Hrun & Es & _ & Ec & Hpos & Hkeep).
    exists w'. split; [ exact Hrun | ]. split; [ discriminate | ].
    split; [ intros _; split; assumption | ]. split; assumption.
  - exists w. split; [ exact (times_Shutdown_without_handle E s sv w n Hs Hh) | ].
    split; [ reflexivity | ].
    split; [ intro H; exfalso; apply H; reflexivity | ].
    split; [ exact (fun H => H) | reflexivity ].
Qed.

(** ** Construction *)

Lemma newRouter_ok (E : Env) (s : ServerPtr) (sv : Server) (w : World) :
  nth_error (servers w) s = Some sv ->
  newRouter E s w = (Ret (routerOf E sv), w).
Proof.
  intro Hs. unfold newRouter, bind. rewrite (derefServer_ok _ _ _ Hs).
  reflexivity.
Qed.

Lemma writeServer_fresh (l : list Server) (v : Server)
      (f : Server -> Server) (w : World) :
  servers w = l ++ [v] ->
  writeServer (List.length l) f w = (Ret tt, with_servers w (l ++ [f v])).
Proof.
  intro Hw. unfold writeServer, bind.
  rewrite (derefServer_ok (List.length l) v w)
    by (rewrite Hw; apply nth_error_alloc).
  rewrite Hw, store_set_alloc. reflexivity.
Qed.

Lemma NewServer_runs (E : Env) (udr : Udr) (k : string) (w : World) :
  NewServer E udr k w =
  (match snd (newHttp2ServerResult E (bindAddrOf w udr) k) with
   | Some _ => Panic (PanicString "Server initialization failed")
   | None => Ret (List.length (servers w))
   end,
   afterNewServer E udr k w).
Proof.
  unfold NewServer, bind at 1. unfold allocServer at 1.
  fold (allocatedServer E udr).
  unfold bind at 1.
  rewrite (newRouter_ok E _ (allocatedServer E udr))
    by (apply nth_error_alloc).
  unfold bind at 1.
  rewrite (writeServer_fresh (servers w) (allocatedServer E udr)) by reflexivity.
  unfold bind at 1. unfold bindRouter, bind at 1, Config at 1.
  unfold NewHttp2Server, bind at 1, emit at 1.
  unfold afterNewServer.
  change (BindingIPv4 _ ++ ":" ++ fmt_d (Port _))%string
    with (bindAddrOf w udr).
  destruct (newHttp2ServerResult E (bindAddrOf w udr) k) as [[|] [e|]];
    cbn -[String.append routerOf fmt_d writeServer];
    unfold bind at 1;
    (erewrite (writeServer_fresh (servers w)) by reflexivity);
    cbn -[String.append routerOf fmt_d];
    rewrite <- ?app_assoc; reflexivity.
Qed.

Lemma listenCalls_app (t u : list Event) :
  listenCalls (t ++ u) = (listenCalls t + listenCalls u)%nat.
Proof. unfold listenCalls. rewrite filter_app, length_app. reflexivity. Qed.

Lemma afterNewServer_no_listen (E : Env) (udr : Udr) (k : string) (w : World) :
  listenCalls (trace (afterNewServer E udr k w)) = listenCalls (trace w).
Proof.
  unfold afterNewServer. cbn [trace]. rewrite listenCalls_app.
  destruct (snd (newHttp2ServerResult E (bindAddrOf w udr) k));
    cbn; lia.
Qed.

Lemma afterNewServer_server (E : Env) (udr : Udr) (k : string) (w : World) :
  exists h,
    nth_error (servers (afterNewServer E udr k w)) (List.length (servers w))
    = Some (finishedServer E udr h)
    /\ (fst (newHttp2ServerResult E (bindAddrOf w udr) k) = true ->
        h = Some (List.length (httpServers w))
        /\ nth_error (httpServers (afterNewServer E udr k w))
                     (List.length (httpServers w)) <> None).
Proof.
  eexists. split.
  - unfold afterNewServer. cbn [servers]. apply nth_error_alloc.
  - intro Hb. unfold afterNewServer. cbn [httpServers]. rewrite Hb.
    split; [ reflexivity | ]. rewrite nth_error_alloc. discriminate.
Qed.

(** C10: a server that NewServer returns has a router, a processor and an
    http server handle, given that the constructors called keep their
    contracts (NewProcessor returns an object; NewHttp2Server returns a
    server whenever it returns no error); Run, Shutdown, Processor and the
    accept-loop task leave every field of every server struct as it is. *)
Theorem NewServer_fields_non_nil_and_stable
        (E : Env) (udr : Udr) (k : string) (w w1 : World) (s : ServerPtr) :
  NewProcessor E udr <> None ->
  (forall addr p,
      snd (newHttp2ServerResult E addr p) = None ->
      fst (newHttp2ServerResult E addr p) = true) ->
  NewServer E udr k w = (Ret s, w1) ->
  exists sv,
    nth_error (servers w1) s = Some sv
    /\ router sv <> None
    /\ processor sv <> None
    /\ httpServer sv <> None
    /\ (forall h, httpServer sv = Some h -> nth_error (httpServers w1) h <> None)
    /\ forall (w2 : World) (wg : WaitGroupPtr),
        servers (snd (Run s wg w2)) = servers w2
        /\ servers (snd (Shutdown E s w2)) = servers w2
        /\ servers (snd (Processor s w2)) = servers w2
        /\ servers (snd (runTask E (AcceptLoopTask s wg) w2)) = servers w2.
Proof.
  intros Hproc Hwrap Hnew. rewrite NewServer_runs in Hnew.
  destruct (snd (newHttp2ServerResult E (bindAddrOf w udr) k)) as [e|] eqn:Herr;
    [ discriminate | ].
  injection Hnew as Hs Hw. subst s w1.
  destruct (afterNewServer_server E udr k w) as (h & Hsv & Hh).
  destruct (Hh (Hwrap _ _ Herr)) as (Eh & Hvalid). subst h.
  eexists. split; [ exact Hsv | ].
  split; [ discriminate | ]. split; [ exact Hproc | ].
  split; [ discriminate | ].
  split.
  { intros h Eh. cbn in Eh. injection Eh as <-. exact Hvalid. }
  intros w2 wg. split; [ | split; [ | split ] ].
  - apply (frames_Run servers); intros ? ?; reflexivity.
  - apply (frames_Shutdown E servers); intros ? ?; reflexivity.
  - apply frames_Processor.
  - apply (frames_runTask E servers); intros ? ?; reflexivity.
Qed.

(** ** Scheme selection *)

Lemma serve_unknown_scheme (E : Env) (s : ServerPtr) (sv : Server) (w : World) :
  nth_error (servers w) s = Some sv ->
  Scheme (sbiOf w (Server_Udr sv)) <> "http" ->
  Scheme (sbiOf w (Server_Udr sv)) <> "https" ->
  serve E s w =
  (Ret (Some (Errorf ("invalid SBI scheme: "
                        ++ Scheme (sbiOf w (Server_Udr sv)))%string)), w).
Proof.
  intros Hs Hhttp Hhttps. unfold serve, bind.
  rewrite (derefServer_ok _ _ _ Hs). unfold Config. fold (sbiOf w (Server_Udr sv)).
  destruct (String.eqb_spec (Scheme (sbiOf w (Server_Udr sv))) "http");
    [ contradiction | ].
  destruct (String.eqb_spec (Scheme (sbiOf w (Server_Udr sv))) "https");
    [ contradiction | ].
  reflexivity.
Qed.

Lemma serve_https (E : Env) (s : ServerPtr) (sv : Server) (w : World) :
  nth_error (servers w) s = Some sv ->
  Scheme (sbiOf w (Server_Udr sv)) = "https" ->
  serve E s w = secureServe E s w.
Proof.
  intros Hs Hscheme. unfold serve, bind.
  rewrite (derefServer_ok _ _ _ Hs). unfold Config. fold (sbiOf w (Server_Udr sv)).
  rewrite Hscheme. reflexivity.
Qed.

(** C1, as the code has it: a scheme other than "http" and "https" does not
    make NewServer fail, which returns the new server whenever bindRouter
    reports no error; the scheme is refused by serve in the accept-loop
    task: serve returns "invalid SBI scheme: <scheme>" and leaves the world
    as it is, so nothing listens, and the task panics with that error. *)
Theorem unknown_scheme_is_refused_by_serve
        (E : Env) (udr : Udr) (k : string) (w : World) :
  let scheme := Scheme (sbiOf w udr) in
  scheme <> "http" -> scheme <> "https" ->
  let s := List.length (servers w) in
  let w1 := afterNewServer E udr k w in
  let err := Errorf ("invalid SBI scheme: " ++ scheme)%string in
  (snd (newHttp2ServerResult E (bindAddrOf w udr) k) = None ->
   NewServer E udr k w = (Ret s, w1))
  /\ serve E s w1 = (Ret (Some err), w1)
  /\ forall (wg : WaitGroupPtr) (n : Z),
      nth_error (waitGroups w1) wg = Some n -> 0 < n ->
      exists w2,
        runTask E (AcceptLoopTask s wg) w1
        = (Panic (PanicLogEntry
                    ("HTTP server setup failed: " ++ Error err)%string), w2)
        /\ listenCalls (trace w2) = listenCalls (trace w).
Proof.
  intros scheme Hhttp Hhttps s w1 err.
  destruct (afterNewServer_server E udr k w) as (h & Hsv & _).
  assert (Hserve : serve E s w1 = (Ret (Some err), w1)).
  { exact (serve_unknown_scheme E s _ w1 Hsv Hhttp Hhttps). }
  split; [ | split ].
  - intro Hnil. rewrite NewServer_runs, Hnil. reflexivity.
  - exact Hserve.
  - intros wg n Hwg Hn.
    eexists. split.
    + unfold runTask. eapply deferred_Done_outcome; [ | | exact Hn ].
      * unfold bind. rewrite Hserve. reflexivity.
      * exact Hwg.
    + cbn [trace with_waitGroups with_trace]. rewrite listenCalls_app.
      cbn [listenCalls filter isListen List.length].
      rewrite Nat.add_0_r. apply afterNewServer_no_listen.
Qed.

(** C2: with scheme "https", the accept loop is started on the certificate
    and key files of the configuration; an empty path is replaced by the
    default of pkg/factory and a path that is not empty is passed on as it
    is. *)
Theorem https_resolves_certificate_and_key
        (E : Env) (s : ServerPtr) (sv : Server) (h : HttpPtr)
        (srv : http_Server) (w : World) :
  nth_error (servers w) s = Some sv ->
  httpServer sv = Some h ->
  nth_error (httpServers w) h = Some srv ->
  inShutdown srv = false ->
  Scheme (sbiOf w (Server_Udr sv)) = "https" ->
  let tls := Tls (sbiOf w (Server_Udr sv)) in
  exists certFile keyFile,
    trace (snd (serve E s w)) = trace w ++ [EvListenAndServeTLS h certFile keyFile]
    /\ (Pem tls = "" -> certFile = UdrDefaultCertPemPath E)
    /\ (Pem tls <> "" -> certFile = Pem tls)
    /\ (Key tls = "" -> keyFile = UdrDefaultPrivateKeyPath E)
    /\ (Key tls <> "" -> keyFile = Key tls).
Proof.
  intros Hs Hh Hsrv Hopen Hscheme tls.
  rewrite (serve_https E s sv w Hs Hscheme).
  unfold secureServe, bind. rewrite (derefServer_ok _ _ _ Hs).
  unfold Config. fold (sbiOf w (Server_Udr sv)). fold tls. rewrite Hh.
  unfold ListenAndServeTLS, bind. rewrite (derefHttp_ok _ _ _ Hsrv), Hopen.
  cbn [emit getTrace ret snd trace with_trace].
  do 2 eexists. split; [ reflexivity | ].
  destruct (String.eqb_spec (Pem tls) ""), (String.eqb_spec (Key tls) "");
    repeat split; intros; congruence.
Qed.

(** ** Routing and the authorization gate *)

Lemma runChain_aborted (hs : Gin.HandlersChain) (st : UdrStore)
      (c : Gin.Context) :
  Gin.aborted c = true -> Gin.runChain hs st c = (c, []).
Proof. intro H. destruct hs; simpl; [ | rewrite H ]; reflexivity. Qed.

Lemma runChain_app (hs1 hs2 : Gin.HandlersChain) (st : UdrStore) :
  forall (c c1 : Gin.Context) (l1 : list Gin.Label),
    Gin.runChain hs1 st c = (c1, l1) ->
    Gin.runChain (hs1 ++ hs2) st c =
    if Gin.aborted c1 then (c1, l1)
    else let '(c2, l2) := Gin.runChain hs2 st c1 in (c2, l1 ++ l2).
Proof.
  induction hs1 as [|h tl IH]; intros c c1 l1 Hrun.
  - simpl in Hrun. injection Hrun as <- <-. simpl.
    destruct (Gin.aborted c) eqn:Ha.
    + apply runChain_aborted; exact Ha.
    + destruct (Gin.runChain hs2 st c); reflexivity.
  - simpl in Hrun |- *. destruct (Gin.aborted c) eqn:Ha.
    + injection Hrun as <- <-. rewrite Ha. reflexivity.
    + destruct (Gin.runChain tl st (Gin.func h st c)) as [c'' ls] eqn:Htl.
      injection Hrun as <- <-.
      rewrite (IH _ _ _ Htl).
      destruct (Gin.aborted c''); [ reflexivity | ].
      destruct (Gin.runChain hs2 st c''); reflexivity.
Qed.

Lemma runChain_labels (hs : Gin.HandlersChain) (st : UdrStore) :
  forall (c : Gin.Context) (l : Gin.Label),
    In l (snd (Gin.runChain hs st c)) -> In l (map Gin.label hs).
Proof.
  induction hs as [|h tl IH]; intros c l Hin; simpl in *; [ exact Hin | ].
  destruct (Gin.aborted c); [ destruct Hin | ].
  destruct (Gin.runChain tl st (Gin.func h st c)) as [c'' ls] eqn:Htl.
  simpl in Hin. destruct Hin as [Heq | Hin]; [ left; exact Heq | right ].
  apply (IH (Gin.func h st c)). rewrite Htl. exact Hin.
Qed.

Lemma labelMiddleware_labels (fs : list Gin.HandlerFunc) :
  forall (i : nat) (l : Gin.Label),
    In l (map Gin.label (labelMiddleware i fs)) ->
    exists j, l = Gin.EngineMiddleware j.
Proof.
  induction fs as [|f tl IH]; intros i l Hin; simpl in Hin; [ destruct Hin | ].
  destruct Hin as [<- | Hin]; [ exists i; reflexivity | exact (IH _ _ Hin) ].
Qed.

Lemma AddService_trees (E : Env) (g : Gin.RouterGroup) (routes : list Route) :
  forall e : Gin.Engine,
    Gin.trees (AddService E e g routes)
    = Gin.trees e ++ map (entryOf E g) routes
    /\ Gin.engineHandlers (AddService E e g routes) = Gin.engineHandlers e.
Proof.
  unfold AddService. induction routes as [|r tl IH]; intro e; simpl.
  - rewrite app_nil_r. split; reflexivity.
  - destruct (IH (Handle E e g (Method r) (Pattern r) (domainHandler r)))
      as [Ht Hh].
    rewrite Ht, Hh. simpl. rewrite <- app_assoc. split; reflexivity.
Qed.

Lemma routerOf_entries (E : Env) (sv : Server) (en : Gin.RouteEntry) :
  In en (Gin.trees (routerOf E sv)) ->
  exists r,
    In r (getDataRepositoryRoutes E sv)
    /\ Gin.entryHandlers en =
       Gin.engineHandlers (routerOf E sv)
         ++ [authorizationHandler E (Server_Udr sv); domainHandler r].
Proof.
  unfold routerOf. cbv zeta.
  match goal with
  | |- context [AddService E ?e ?g ?rs] =>
      destruct (AddService_trees E g rs e) as [Ht Hh]
  end.
  rewrite Ht, Hh. simpl. intro Hin. apply in_map_iff in Hin.
  destruct Hin as (r & <- & Hr). exists r. split; [ exact Hr | ].
  simpl. rewrite <- app_assoc. reflexivity.
Qed.

(** C6: in the router that newRouter builds, every route has, after the
    engine middleware, the authorization check and then its domain handler:
    the check was on the group before the routes were added.  A request that
    matches a route, gets past the engine middleware and is denied is
    answered by the check, with status 401 and the reason, and no domain
    handler is invoked. *)
Theorem denied_request_never_reaches_domain_handler
        (E : Env) (s : ServerPtr) (sv : Server) (w : World) :
  nth_error (servers w) s = Some sv ->
  exists engine,
    newRouter E s w = (Ret engine, w)
    /\ (forall en,
          In en (Gin.trees engine) ->
          exists r,
            In r (getDataRepositoryRoutes E sv)
            /\ Gin.entryHandlers en =
               Gin.engineHandlers engine
                 ++ [authorizationHandler E (Server_Udr sv); domainHandler r])
    /\ forall (st : UdrStore) (req : Gin.Request) (en : Gin.RouteEntry)
              (c1 : Gin.Context) (l1 : list Gin.Label) (reason : string),
        find (entryMatches E req) (Gin.trees engine) = Some en ->
        Gin.runChain (Gin.engineHandlers engine) st (Gin.newContext req)
        = (c1, l1) ->
        Gin.aborted c1 = false ->
        AuthorizationCheck E ServiceName_NUDR_DR
                           (udrContext (st (Server_Udr sv))) (Gin.Req c1)
        = Deny reason ->
        ServeHTTP E engine st req
        = (Gin.Abort (Gin.JSON c1 StatusUnauthorized reason),
           l1 ++ [Gin.AuthorizationGate])
        /\ forall m p,
            ~ In (Gin.DomainHandler m p) (snd (ServeHTTP E engine st req)).
Proof.
  intro Hs. exists (routerOf E sv).
  split; [ exact (newRouter_ok E s sv w Hs) | ].
  split; [ exact (routerOf_entries E sv) | ].
  intros st req en c1 l1 reason Hfind Hmw Hpass Hdeny.
  assert (Hserve :
    ServeHTTP E (routerOf E sv) st req
    = (Gin.Abort (Gin.JSON c1 StatusUnauthorized reason),
       l1 ++ [Gin.AuthorizationGate])).
  { unfold ServeHTTP. rewrite Hfind.
    destruct (routerOf_entries E sv en (proj1 (find_some _ _ Hfind)))
      as (r & _ & Hchain).
    rewrite Hchain, (runChain_app _ _ _ _ _ _ Hmw), Hpass.
    simpl. rewrite Hpass. unfold Check. simpl. rewrite Hdeny. reflexivity. }
  split; [ exact Hserve | ].
  intros m p Hin. rewrite Hserve in Hin. simpl in Hin.
  apply in_app_or in Hin. destruct Hin as [Hin | [Hin | []]];
    [ | discriminate ].
  assert (Hl : In (Gin.DomainHandler m p)
                  (snd (Gin.runChain (Gin.engineHandlers (routerOf E sv)) st
                                     (Gin.newContext req))))
    by (rewrite Hmw; exact Hin).
  apply runChain_labels in Hl.
  unfold routerOf in Hl. cbv zeta in Hl.
  match type of Hl with
  | context [AddService E ?e ?g ?rs] =>
      rewrite (proj2 (AddService_trees E g rs e)) in Hl
  end.
  apply labelMiddleware_labels in Hl. destruct Hl as (j & Hj). discriminate.
Qed.

(** ** The concrete deployment, run *)

(** C1 as stated fails: with scheme "ftp", NewServer returns server 0
    instead of failing. *)
Lemma NewServer_accepts_unknown_scheme :
  Scheme (sbiOf (Example.initial "ftp" "" "") 0%nat) = "ftp"
  /\ fst (NewServer (Example.env false ErrServerClosed) 0%nat ""
                    (Example.initial "ftp" "" ""))
     = Ret 0%nat.
Proof. split; reflexivity. Qed.

Lemma unknown_scheme_is_refused_by_serve_witness :
  let E := Example.env false ErrServerClosed in
  let w1 := Example.constructed false ErrServerClosed "ftp" "" "" in
  ("ftp" <> "http" /\ "ftp" <> "https")
  /\ serve E 0%nat w1 = (Ret (Some (Errorf "invalid SBI scheme: ftp")), w1).
Proof.
  intros E w1.
  assert (H1 : "ftp" <> "http") by discriminate.
  assert (H2 : "ftp" <> "https") by discriminate.
  split; [ split; assumption | ].
  exact (proj1 (proj2 (unknown_scheme_is_refused_by_serve
                         E 0%nat "" (Example.initial "ftp" "" "") H1 H2))).
Defined.

Lemma https_resolves_certificate_and_key_witness :
  let E := Example.env false ErrServerClosed in
  let w := Example.constructed false ErrServerClosed "https" "" "/etc/udr/udr.key" in
  trace (snd (serve E 0%nat w))
  = trace w ++ [EvListenAndServeTLS 0%nat "cert/udr.pem" "/etc/udr/udr.key"].
Proof.
  intros E w.
  destruct (https_resolves_certificate_and_key
              E 0%nat
              (finishedServer E 0%nat (Some 0%nat)) 0%nat
              {| Addr := "127.0.0.4:8000";
                 Handler := routerOf E (allocatedServer E 0%nat);
                 KeyLogPath := ""; inShutdown := false |}
              w eq_refl eq_refl eq_refl eq_refl eq_refl)
    as (certFile & keyFile & Htrace & Hpem & _ & _ & Hkey).
  rewrite Htrace, (Hpem eq_refl), Hkey; [ reflexivity | discriminate ].
Defined.

Lemma accept_loop_error_escalation_witness :
  let E := Example.env false (Errorf "accept tcp: too many open files") in
  let w := Example.running false ErrServerClosed "http" "" "" in
  exists w2,
    runTask E (AcceptLoopTask 0%nat 0%nat) w
    = (Panic (PanicLogEntry
                "HTTP server setup failed: accept tcp: too many open files"),
       w2).
Proof.
  intros E w.
  destruct (accept_loop_error_escalation
              E 0%nat 0%nat w (snd (serve E 0%nat w))
              (Some (Errorf "accept tcp: too many open files")) 1
              eq_refl eq_refl eq_refl) as [Hpanic _].
  destruct Hpanic as (w2 & Hrun & _); [ discriminate | ].
  exists w2. exact Hrun.
Defined.

Lemma shutdown_deadline_and_containment_witness :
  let E := Example.env true ErrServerClosed in
  let w := Example.running true ErrServerClosed "http" "" "" in
  exists w',
    Shutdown E 0%nat w = (Ret tt, w')
    /\ trace w' =
       trace w ++
         [EvShutdown 0%nat 2000000000;
          EvLog SBILog ErrorLevel
                "HTTP server shutdown failed: context deadline exceeded";
          EvCancel {| ctxTimeout := 2000000000 |}]
    /\ handleClosed w' 0%nat = true.
Proof.
  intros E w.
  destruct (shutdown_deadline_and_containment
              E 0%nat
              (finishedServer E 0%nat (Some 0%nat)) 0%nat
              {| Addr := "127.0.0.4:8000";
                 Handler := routerOf E (allocatedServer E 0%nat);
                 KeyLogPath := ""; inShutdown := false |}
              w eq_refl eq_refl eq_refl)
    as (w' & Hrun & _ & Herr & _ & _ & Hclosed).
  exists w'. split; [ exact Hrun | ]. split; [ | exact Hclosed ].
  exact (Herr DeadlineExceeded eq_refl).
Defined.

(** C5 as stated fails: a peer keeps its connection busy; the first
    Shutdown closes the server, and the second is not a no-op: it waits for
    the deadline again and logs again. *)
Lemma second_Shutdown_is_not_a_noop :
  let E := Example.env true ErrServerClosed in
  let w1 := snd (Shutdown E 0%nat
                   (Example.running true ErrServerClosed "http" "" "")) in
  handleClosed w1 0%nat = true
  /\ trace (snd (Shutdown E 0%nat w1)) =
     trace w1 ++
       [EvShutdown 0%nat 2000000000;
        EvLog SBILog ErrorLevel
              "HTTP server shutdown failed: context deadline exceeded";
        EvCancel {| ctxTimeout := 2000000000 |}]
  /\ Shutdown E 0%nat w1 <> (Ret tt, w1).
Proof.
  intros E w1. split; [ reflexivity | ]. split; [ reflexivity | ].
  intro H. apply (f_equal (fun r => List.length (trace (snd r)))) in H.
  vm_compute in H. discriminate.
Qed.

Lemma Shutdown_repeated_is_safe_witness :
  let E := Example.env true ErrServerClosed in
  let w := Example.running true ErrServerClosed "http" "" "" in
  exists w',
    times 3 (Shutdown E 0%nat) w = (Ret tt, w')
    /\ shutdownCalls (trace w') = 3%nat
    /\ handleClosed w' 0%nat = true.
Proof.
  intros E w.
  assert (Hvalid : forall h,
             httpServer (finishedServer E 0%nat (Some 0%nat)) = Some h ->
             nth_error (httpServers w) h <> None).
  { intros h Hh. injection Hh as <-. discriminate. }
  destruct (Shutdown_repeated_is_safe
              E 0%nat (finishedServer E 0%nat (Some 0%nat)) w 3 eq_refl Hvalid)
    as (w' & Hrun & _ & Hhandle & _).
  destruct Hhandle as [Hcalls Hclosed]; [ discriminate | ].
  exists w'. split; [ exact Hrun | ]. split; [ exact Hcalls | ].
  apply Hclosed. apply Nat.lt_0_succ.
Defined.

Lemma denied_request_never_reaches_domain_handler_witness :
  let E := Example.env false ErrServerClosed in
  let w := Example.constructed false ErrServerClosed "https" "" "" in
  exists engine,
    newRouter E 0%nat w = (Ret engine, w)
    /\ ServeHTTP E engine (udrStore w) Example.unauthenticated
       = ({| Gin.Req := Example.unauthenticated;
             Gin.Resp := Some {| Gin.Status := 401;
                                 Gin.Body := "missing token" |};
             Gin.aborted := true |},
          [Gin.EngineMiddleware 0; Gin.AuthorizationGate]).
Proof.
  intros E w.
  destruct (denied_request_never_reaches_domain_handler
              E 0%nat (finishedServer E 0%nat (Some 0%nat)) w eq_refl)
    as (engine & Hnew & _ & Hdeny).
  exists engine. split; [ exact Hnew | ].
  assert (Hengine : engine = routerOf E (finishedServer E 0%nat (Some 0%nat))).
  { assert (Hc : newRouter E 0%nat w
                 = (Ret (routerOf E (finishedServer E 0%nat (Some 0%nat))), w))
      by reflexivity.
    rewrite Hnew in Hc. injection Hc as Hc. exact Hc. }
  subst engine.
  exact (proj1 (Hdeny (udrStore w) Example.unauthenticated _
                      (Gin.newContext Example.unauthenticated)
                      [Gin.EngineMiddleware 0] "missing token"
                      eq_refl eq_refl eq_refl eq_refl)).
Defined.

Lemma Run_registers_one_unit_and_returns_witness :
  let E := Example.env false (Errorf "accept tcp: too many open files") in
  let w := Example.constructed false ErrServerClosed "http" "" "" in
  exists w1,
    Run 0%nat 0%nat w = (Ret tt, w1)
    /\ nth_error (waitGroups w1) 0%nat = Some 1
    /\ goroutines w1 = [AcceptLoopTask 0%nat 0%nat]
    /\ nth_error
         (waitGroups (snd (runTask E (AcceptLoopTask 0%nat 0%nat) w1))) 0%nat
       = Some 0
    /\ goroutines (snd (Run 0%nat 7%nat w)) = []
    /\ trace (snd (runTask E (AcceptLoopTask 0%nat 0%nat) w1)) =
       trace w1 ++
         [EvListenAndServe 0%nat;
          EvLog SBILog PanicLevel
                "HTTP server setup failed: accept tcp: too many open files"].
Proof.
  intros E w.
  assert (Hpos : 0 <= 0) by lia.
  destruct (Run_registers_one_unit_and_returns E 0%nat 0%nat w 0 eq_refl Hpos)
    as (w1 & Hrun & Hwg & Hgo & Htrace & Htask & _ & Hserve).
  exists w1. split; [ exact Hrun | ]. split; [ exact Hwg | ].
  split; [ exact Hgo | ].
  assert (Hone : 0 < 1) by lia.
  split; [ exact (proj1 (Htask w1 1 Hwg Hone)) | ].
  split; [ reflexivity | ].
  assert (Hw1 : w1 = snd (Run 0%nat 0%nat w)) by (rewrite Hrun; reflexivity).
  rewrite (proj2 (Hserve w1 (snd (serve E 0%nat w1)) (fst (serve E 0%nat w1))
                         (surjective_pairing _))).
  rewrite Hw1. reflexivity.
Defined.

Lemma NewServer_fields_non_nil_and_stable_witness :
  let E := Example.env false ErrServerClosed in
  exists sv,
    nth_error
      (servers (Example.constructed false ErrServerClosed "https" "" ""))
      0%nat = Some sv
    /\ router sv <> None
    /\ processor sv <> None
    /\ httpServer sv <> None.
Proof.
  intros E.
  assert (Hproc : NewProcessor E 0%nat <> None) by discriminate.
  assert (Hwrap : forall addr p,
             snd (newHttp2ServerResult E addr p) = None ->
             fst (newHttp2ServerResult E addr p) = true).
  { intros addr p. simpl. unfold Example.wrapper.
    destruct (String.eqb p "/proc/keylog"); simpl; [ discriminate | reflexivity ]. }
  destruct (NewServer_fields_non_nil_and_stable
              E 0%nat "" (Example.initial "https" "" "")
              (Example.constructed false ErrServerClosed "https" "" "")
              0%nat Hproc Hwrap eq_refl)
    as (sv & Hsv & Hr & Hp & Hh & _).
  exists sv. repeat split; assumption.
Defined.

(** * Further properties of server.go *)

(** ** serve *)

Lemma serve_http (E : Env) (s : ServerPtr) (sv : Server) (w : World) :
  nth_error (servers w) s = Some sv ->
  Scheme (sbiOf w (Server_Udr sv)) = "http" ->
  serve E s w = unsecureServe E s w.
Proof.
  intros Hs Hscheme. unfold serve, bind.
  rewrite (derefServer_ok _ _ _ Hs). unfold Config. fold (sbiOf w (Server_Udr sv)).
  rewrite Hscheme. reflexivity.
Qed.

(** X1: with scheme "http" serve starts the plaintext accept loop on the
    handle of the server, whatever certificate and key paths the
    configuration holds, and returns the error that ends the loop as it
    is. *)
Theorem http_serves_plaintext
        (E : Env) (s : ServerPtr) (sv : Server) (h : HttpPtr)
        (srv : http_Server) (w : World) :
  nth_error (servers w) s = Some sv ->
  httpServer sv = Some h ->
  nth_error (httpServers w) h = Some srv ->
  inShutdown srv = false ->
  Scheme (sbiOf w (Server_Udr sv)) = "http" ->
  serve E s w =
  (Ret (Some (acceptLoopResult E h (trace w ++ [EvListenAndServe h]))),
   with_trace w (trace w ++ [EvListenAndServe h])).
Proof.
  intros Hs Hh Hsrv Hopen Hscheme.
  rewrite (serve_http E s sv w Hs Hscheme).
  unfold unsecureServe, bind. rewrite (derefServer_ok _ _ _ Hs), Hh.
  unfold ListenAndServe, bind. rewrite (derefHttp_ok _ _ _ Hsrv), Hopen.
  reflexivity.
Qed.

Lemma ListenAndServe_shape (E : Env) (p : HttpPtr) (w : World) :
  atMostOneListen w (snd (ListenAndServe E p w))
  /\ fst (ListenAndServe E p w) <> Ret None.
Proof.
  unfold ListenAndServe, bind, derefHttp.
  destruct (nth_error (httpServers w) p) as [srv|]; cbn.
  - destruct (inShutdown srv); cbn.
    + split; [ left; reflexivity | discriminate ].
    + split; [ right; eexists; split; [ | reflexivity ]; reflexivity
             | discriminate ].
  - split; [ left; reflexivity | discriminate ].
Qed.

Lemma ListenAndServeTLS_shape (E : Env) (p : HttpPtr) (c k : string) (w : World) :
  atMostOneListen w (snd (ListenAndServeTLS E p c k w))
  /\ fst (ListenAndServeTLS E p c k w) <> Ret None.
Proof.
  unfold ListenAndServeTLS, bind, derefHttp.
  destruct (nth_error (httpServers w) p) as [srv|]; cbn.
  - destruct (inShutdown srv); cbn.
    + split; [ left; reflexivity | discriminate ].
    + split; [ right; eexists; split; [ | reflexivity ]; reflexivity
             | discriminate ].
  - split; [ left; reflexivity | discriminate ].
Qed.

(** X2: whatever the server, the configuration and the environment, serve
    adds to the trace nothing or exactly one listen call (it never logs and
    never shuts anything down), and when it returns, the error it returns
    is not nil. *)
Theorem serve_listens_at_most_once_and_never_returns_nil
        (E : Env) (s : ServerPtr) (w : World) :
  atMostOneListen w (snd (serve E s w))
  /\ fst (serve E s w) <> Ret None
  /\ shutdownCalls (trace (snd (serve E s w))) = shutdownCalls (trace w).
Proof.
  assert (H : atMostOneListen w (snd (serve E s w))
              /\ fst (serve E s w) <> Ret None).
  { unfold serve, bind, derefServer.
    destruct (nth_error (servers w) s) as [sv|] eqn:Hs; cbn;
      [ | split; [ left; reflexivity | discriminate ] ].
    destruct (String.eqb _ "http").
    - unfold unsecureServe, bind. rewrite (derefServer_ok _ _ _ Hs).
      destruct (httpServer sv) as [h|]; cbn.
      + apply ListenAndServe_shape.
      + split; [ left; reflexivity | discriminate ].
    - destruct (String.eqb _ "https").
      + unfold secureServe, bind. rewrite (derefServer_ok _ _ _ Hs). cbn.
        destruct (httpServer sv) as [h|]; cbn.
        * apply ListenAndServeTLS_shape.
        * split; [ left; reflexivity | discriminate ].
      + cbn. split; [ left; reflexivity | discriminate ]. }
  destruct H as [Hshape Hnil]. split; [ exact Hshape | ].
  split; [ exact Hnil | ].
  destruct Hshape as [-> | (ev & Hev & ->)]; [ reflexivity | ].
  rewrite shutdownCalls_app. destruct ev; try discriminate; cbn; lia.
Qed.

(** ** Construction *)

Lemma nth_error_alloc_old {A : Type} (l : list A) (a v : A) (p : nat) :
  nth_error l p = Some v -> nth_error (l ++ [a]) p = Some v.
Proof.
  intro H. rewrite nth_error_app1; [ exact H | ].
  apply nth_error_Some. rewrite H. discriminate.
Qed.

Lemma nth_error_fresh {A : Type} (l : list A) :
  nth_error l (List.length l) = None.
Proof. apply nth_error_None. apply Nat.le_refl. Qed.

(** X3: when NewServer returns and the wrapper gave a server object, the
    server struct and the handle are new objects; the struct embeds the
    given Udr and holds a router; the handle is for the address "host:port"
    of the configuration and is not shut down; and the wrapper was called
    once, with that address and the key-log path as given. *)
Theorem NewServer_returns_a_fresh_server_on_a_fresh_handle
        (E : Env) (udr : Udr) (k : string) (w w1 : World) (s : ServerPtr) :
  NewServer E udr k w = (Ret s, w1) ->
  fst (newHttp2ServerResult E (bindAddrOf w udr) k) = true ->
  let addr :=
    (BindingIPv4 (sbiOf w udr) ++ ":" ++ fmt_d (Port (sbiOf w udr)))%string in
  exists sv h srv,
    nth_error (servers w1) s = Some sv
    /\ nth_error (servers w) s = None
    /\ Server_Udr sv = udr
    /\ httpServer sv = Some h
    /\ router sv <> None
    /\ nth_error (httpServers w1) h = Some srv
    /\ nth_error (httpServers w) h = None
    /\ Addr srv = addr
    /\ inShutdown srv = false
    /\ trace w1 = trace w ++ [EvNewHttp2Server addr k].
Proof.
  intros Hnew Hsrv addr. rewrite NewServer_runs in Hnew.
  destruct (snd (newHttp2ServerResult E (bindAddrOf w udr) k)) as [e|] eqn:Herr;
    [ discriminate | ].
  injection Hnew as <- <-.
  exists (finishedServer E udr (Some (List.length (httpServers w)))),
         (List.length (httpServers w)).
  eexists.
  unfold afterNewServer. cbn [servers httpServers trace]. rewrite Hsrv, Herr.
  split; [ apply nth_error_alloc | ].
  split; [ apply nth_error_fresh | ].
  split; [ reflexivity | ]. split; [ reflexivity | ].
  split; [ discriminate | ].
  split; [ apply nth_error_alloc | ].
  split; [ apply nth_error_fresh | ].
  repeat split.
Qed.

(** X4: NewServer, whether it returns or panics, only allocates and logs:
    the configuration, the wait groups and the tasks are as before, no
    listen call and no shutdown call was made, and every server struct and
    every handle that existed is still what it was. *)
Theorem NewServer_only_allocates
        (E : Env) (udr : Udr) (k : string) (w : World) :
  let w1 := snd (NewServer E udr k w) in
  udrStore w1 = udrStore w
  /\ waitGroups w1 = waitGroups w
  /\ goroutines w1 = goroutines w
  /\ listenCalls (trace w1) = listenCalls (trace w)
  /\ shutdownCalls (trace w1) = shutdownCalls (trace w)
  /\ (forall p sv,
        nth_error (servers w) p = Some sv -> nth_error (servers w1) p = Some sv)
  /\ (forall p srv,
        nth_error (httpServers w) p = Some srv ->
        nth_error (httpServers w1) p = Some srv).
Proof.
  rewrite NewServer_runs. cbn [snd].
  split; [ reflexivity | ]. split; [ reflexivity | ].
  split; [ reflexivity | ].
  split; [ apply afterNewServer_no_listen | ].
  split.
  { unfold afterNewServer. cbn [trace]. rewrite shutdownCalls_app.
    destruct (snd (newHttp2ServerResult E (bindAddrOf w udr) k)); cbn; lia. }
  split.
  - intros p sv Hp. unfold afterNewServer. cbn [servers].
    apply nth_error_alloc_old. exact Hp.
  - intros p srv Hp. unfold afterNewServer. cbn [httpServers].
    destruct (fst (newHttp2ServerResult E (bindAddrOf w udr) k));
      [ apply nth_error_alloc_old | ]; exact Hp.
Qed.

(** X9: Processor returns the processor that NewServer got from
    processor.NewProcessor and leaves the world as it is; the answer is the
    same after Run, after Shutdown and after the accept-loop task. *)
Theorem Processor_returns_the_constructed_processor
        (E : Env) (udr : Udr) (k : string) (w w1 : World) (s : ServerPtr) :
  NewServer E udr k w = (Ret s, w1) ->
  Processor s w1 = (Ret (NewProcessor E udr), w1)
  /\ forall wg : WaitGroupPtr,
      fst (Processor s (snd (Run s wg w1))) = Ret (NewProcessor E udr)
      /\ fst (Processor s (snd (Shutdown E s w1))) = Ret (NewProcessor E udr)
      /\ fst (Processor s (snd (runTask E (AcceptLoopTask s wg) w1)))
         = Ret (NewProcessor E udr).
Proof.
  intro Hnew. rewrite NewServer_runs in Hnew.
  destruct (snd (newHttp2ServerResult E (bindAddrOf w udr) k)) as [e|];
    [ discriminate | ].
  injection Hnew as <- <-.
  destruct (afterNewServer_server E udr k w) as (h & Hsv & _).
  set (w1 := afterNewServer E udr k w) in *.
  assert (Hget : forall w2,
             servers w2 = servers w1 ->
             Processor (List.length (servers w)) w2
             = (Ret (NewProcessor E udr), w2)).
  { intros w2 Heq. unfold Processor, bind.
    rewrite (derefServer_ok _ (finishedServer E udr h) w2)
      by (rewrite Heq; exact Hsv).
    reflexivity. }
  split; [ apply Hget; reflexivity | ].
  intro wg. split; [ | split ].
  - rewrite Hget; [ reflexivity | ].
    apply (frames_Run servers); intros ? ?; reflexivity.
  - rewrite Hget; [ reflexivity | ].
    apply (frames_Shutdown E servers); intros ? ?; reflexivity.
  - rewrite Hget; [ reflexivity | ].
    apply (frames_runTask E servers); intros ? ?; reflexivity.
Qed.

(** ** Run *)

Lemma Run_step (s : ServerPtr) (wg : WaitGroupPtr) (w : World) (n : Z) :
  nth_error (waitGroups w) wg = Some n -> 0 <= n ->
  Run s wg w =
  (Ret tt,
   {| udrStore := udrStore w; servers := servers w;
      httpServers := httpServers w;
      waitGroups := store_set (waitGroups w) wg (n + 1);
      goroutines := goroutines w ++ [AcceptLoopTask s wg];
      trace := trace w ++ [EvLog SBILog InfoLevel "Starting server..."] |}).
Proof.
  intros Hwg Hn. unfold Run, log_Info, emit, bind, go.
  erewrite wg_Add_ok; [ reflexivity | exact Hwg | lia ].
Qed.

(** X5: Run has no guard against being called again and does not look at
    the server: k calls in a row all return, add k units to the wait group
    and hand k accept-loop tasks to the scheduler. *)
Theorem Run_repeated_registers_each_time
        (s : ServerPtr) (wg : WaitGroupPtr) (k : nat) :
  forall (w : World) (n : Z),
    nth_error (waitGroups w) wg = Some n -> 0 <= n ->
    exists w',
      times k (Run s wg) w = (Ret tt, w')
      /\ nth_error (waitGroups w') wg = Some (n + Z.of_nat k)
      /\ goroutines w' = goroutines w ++ repeat (AcceptLoopTask s wg) k
      /\ servers w' = servers w
      /\ httpServers w' = httpServers w.
Proof.
  induction k as [|k IH]; intros w n Hwg Hn.
  - exists w. split; [ reflexivity | ].
    split; [ rewrite Z.add_0_r; exact Hwg | ].
    split; [ rewrite app_nil_r; reflexivity | split; reflexivity ].
  - pose proof (Run_step s wg w n Hwg Hn) as Hstep.
    match type of Hstep with _ = (_, ?x) => set (w1 := x) in * end.
    assert (Hwg1 : nth_error (waitGroups w1) wg = Some (n + 1))
      by (cbn [w1 waitGroups]; eapply store_set_same; exact Hwg).
    destruct (IH w1 (n + 1) Hwg1 ltac:(lia)) as (w' & Hrun & Hc & Hg & Hs & Hh).
    exists w'. cbn [times]. unfold bind. rewrite Hstep.
    split; [ exact Hrun | ].
    split; [ rewrite Hc; f_equal; lia | ].
    split; [ rewrite Hg; cbn [w1 goroutines repeat];
             rewrite <- app_assoc; reflexivity | ].
    split; [ rewrite Hs | rewrite Hh ]; reflexivity.
Qed.

(** ** Shutdown and the accept-loop task *)

Lemma store_set_other {A : Type} (l : list A) (p q : nat) (a : A) :
  q <> p -> nth_error (store_set l p a) q = nth_error l q.
Proof.
  revert p q; induction l as [|x l IH]; intros [|p] [|q] H; simpl;
    try reflexivity; try congruence.
  apply IH; congruence.
Qed.

Lemma listenCalls_attempt (E : Env) (h : HttpPtr) (t : list Event) :
  listenCalls (shutdownEvents E h t) = 0%nat.
Proof.
  unfold shutdownEvents.
  destruct (shutdownResult E h (2 * time_Second)
              (t ++ [EvShutdown h (2 * time_Second)])); reflexivity.
Qed.

Lemma serve_on_closed_handle (E : Env) (s : ServerPtr) (sv : Server)
      (h : HttpPtr) (srv : http_Server) (w : World) :
  nth_error (servers w) s = Some sv ->
  httpServer sv = Some h ->
  nth_error (httpServers w) h = Some srv ->
  inShutdown srv = true ->
  Scheme (sbiOf w (Server_Udr sv)) = "http"
  \/ Scheme (sbiOf w (Server_Udr sv)) = "https" ->
  serve E s w = (Ret (Some ErrServerClosed), w).
Proof.
  intros Hs Hh Hsrv Hclosed [Hscheme | Hscheme].
  - rewrite (serve_http E s sv w Hs Hscheme).
    unfold unsecureServe, bind. rewrite (derefServer_ok _ _ _ Hs), Hh.
    unfold ListenAndServe, bind. rewrite (derefHttp_ok _ _ _ Hsrv), Hclosed.
    reflexivity.
  - rewrite (serve_https E s sv w Hs Hscheme).
    unfold secureServe, bind. rewrite (derefServer_ok _ _ _ Hs).
    unfold Config. cbn. rewrite Hh.
    unfold ListenAndServeTLS, bind. rewrite (derefHttp_ok _ _ _ Hsrv), Hclosed.
    reflexivity.
Qed.

(** X6: Shutdown before the accept-loop task has run: the task then finds
    the handle shut down, makes no listen call, logs nothing, does not panic
    and gives its unit back to the wait group. *)
Theorem task_after_Shutdown_exits_quietly
        (E : Env) (s : ServerPtr) (sv : Server) (h : HttpPtr)
        (srv : http_Server) (wg : WaitGroupPtr) (n : Z) (w : World) :
  nth_error (servers w) s = Some sv ->
  httpServer sv = Some h ->
  nth_error (httpServers w) h = Some srv ->
  Scheme (sbiOf w (Server_Udr sv)) = "http"
  \/ Scheme (sbiOf w (Server_Udr sv)) = "https" ->
  nth_error (waitGroups w) wg = Some n -> 0 < n ->
  exists w1 w2,
    Shutdown E s w = (Ret tt, w1)
    /\ runTask E (AcceptLoopTask s wg) w1 = (Ret tt, w2)
    /\ trace w2 = trace w1
    /\ listenCalls (trace w2) = listenCalls (trace w)
    /\ nth_error (waitGroups w2) wg = Some (n - 1).
Proof.
  intros Hs Hh Hsrv Hscheme Hwg Hn.
  pose proof (Shutdown_on_handle E s sv h srv w Hs Hh Hsrv) as Hstep.
  match type of Hstep with _ = (_, ?x) => set (w1 := x) in * end.
  assert (Hserve : serve E s w1 = (Ret (Some ErrServerClosed), w1)).
  { apply (serve_on_closed_handle E s sv h (markShutdown srv) w1).
    - exact Hs.
    - exact Hh.
    - cbn [w1 httpServers]. eapply store_set_same; exact Hsrv.
    - reflexivity.
    - exact Hscheme. }
  exists w1. eexists. split; [ exact Hstep | ].
  split.
  { unfold runTask.
    eapply (deferred_Done_outcome wg _ w1 w1); [ | exact Hwg | exact Hn ].
    unfold bind. rewrite Hserve. reflexivity. }
  split; [ reflexivity | ].
  split.
  - cbn [trace with_waitGroups w1]. rewrite listenCalls_app, listenCalls_attempt.
    apply Nat.add_0_r.
  - cbn [waitGroups with_waitGroups w1]. replace (n - 1) with (n + -1) by lia.
    eapply store_set_same; exact Hwg.
Qed.

(** X7: Shutdown of a server with a handle changes that handle and the
    trace and nothing else: configuration, server structs, wait groups and
    tasks are as before (it neither waits for the accept-loop task nor
    releases its unit), no listen call is made, the handle keeps its address
    and handler, and every other handle, so every server on another handle,
    is open or closed as it was. *)
Theorem Shutdown_touches_only_its_handle
        (E : Env) (s : ServerPtr) (sv : Server) (h : HttpPtr)
        (srv : http_Server) (w : World) :
  nth_error (servers w) s = Some sv ->
  httpServer sv = Some h ->
  nth_error (httpServers w) h = Some srv ->
  let w' := snd (Shutdown E s w) in
  udrStore w' = udrStore w
  /\ servers w' = servers w
  /\ waitGroups w' = waitGroups w
  /\ goroutines w' = goroutines w
  /\ listenCalls (trace w') = listenCalls (trace w)
  /\ (exists srv',
        nth_error (httpServers w') h = Some srv'
        /\ Addr srv' = Addr srv /\ Handler srv' = Handler srv
        /\ KeyLogPath srv' = KeyLogPath srv)
  /\ (forall q, q <> h ->
        nth_error (httpServers w') q = nth_error (httpServers w) q)
  /\ (forall s' sv' h',
        nth_error (servers w) s' = Some sv' ->
        httpServer sv' = Some h' -> h' <> h ->
        handleClosed w' s' = handleClosed w s').
Proof.
  intros Hs Hh Hsrv. rewrite (Shutdown_on_handle E s sv h srv w Hs Hh Hsrv).
  cbn [snd udrStore servers waitGroups goroutines trace httpServers].
  split; [ reflexivity | ]. split; [ reflexivity | ].
  split; [ reflexivity | ]. split; [ reflexivity | ].
  split; [ rewrite listenCalls_app, listenCalls_attempt; apply Nat.add_0_r | ].
  split.
  { exists (markShutdown srv).
    split; [ eapply store_set_same; exact Hsrv | repeat split ]. }
  split.
  - intros q Hq. apply store_set_other. exact Hq.
  - intros s' sv' h' Hs' Hh' Hne. unfold handleClosed.
    cbn [servers httpServers]. rewrite Hs', Hh'.
    rewrite store_set_other by exact Hne. reflexivity.
Qed.

(** X8: serve has no guard for a missing handle, unlike shutdown: on a
    server whose httpServer is nil and whose scheme is "http" or "https",
    serve panics with a nil dereference without any call, the accept-loop
    task passes that panic on after giving its unit back, and Shutdown is a
    no-op. *)
Theorem serve_without_handle_panics
        (E : Env) (s : ServerPtr) (sv : Server) (w : World) :
  nth_error (servers w) s = Some sv ->
  httpServer sv = None ->
  Scheme (sbiOf w (Server_Udr sv)) = "http"
  \/ Scheme (sbiOf w (Server_Udr sv)) = "https" ->
  serve E s w = (Panic nilDereference, w)
  /\ Shutdown E s w = (Ret tt, w)
  /\ forall (wg : WaitGroupPtr) (n : Z),
      nth_error (waitGroups w) wg = Some n -> 0 < n ->
      runTask E (AcceptLoopTask s wg) w
      = (Panic nilDereference,
         with_waitGroups w (store_set (waitGroups w) wg (n + -1))).
Proof.
  intros Hs Hh Hscheme.
  assert (Hserve : serve E s w = (Panic nilDereference, w)).
  { destruct Hscheme as [Hscheme | Hscheme].
    - rewrite (serve_http E s sv w Hs Hscheme).
      unfold unsecureServe, bind. rewrite (derefServer_ok _ _ _ Hs), Hh.
      reflexivity.
    - rewrite (serve_https E s sv w Hs Hscheme).
      unfold secureServe, bind. rewrite (derefServer_ok _ _ _ Hs).
      unfold Config. cbn. rewrite Hh. reflexivity. }
  split; [ exact Hserve | ].
  split; [ exact (Shutdown_without_handle E s sv w Hs Hh) | ].
  intros wg n Hwg Hn. unfold runTask.
  eapply deferred_Done_outcome; [ | exact Hwg | exact Hn ].
  unfold bind. rewrite Hserve. reflexivity.
Qed.

(** ** What construction and the wait group depend on *)

(** X10: NewServer reads the bind host and port and nothing else of the
    configuration: from two worlds that agree on the address, on the stores
    and on the trace (they may differ in scheme and TLS paths) it ends the
    same way, with the same server, handle and router and the same calls. *)
Theorem NewServer_depends_on_address_only
        (E : Env) (udr : Udr) (k : string) (w w' : World) :
  bindAddrOf w udr = bindAddrOf w' udr ->
  servers w = servers w' ->
  httpServers w = httpServers w' ->
  trace w = trace w' ->
  fst (NewServer E udr k w) = fst (NewServer E udr k w')
  /\ servers (snd (NewServer E udr k w)) = servers (snd (NewServer E udr k w'))
  /\ httpServers (snd (NewServer E udr k w))
     = httpServers (snd (NewServer E udr k w'))
  /\ trace (snd (NewServer E udr k w)) = trace (snd (NewServer E udr k w')).
Proof.
  intros Haddr Hs Hh Ht. rewrite !NewServer_runs. cbn [fst snd].
  unfold afterNewServer. cbn [servers httpServers trace].
  rewrite Haddr, Hs, Hh, Ht. repeat split.
Qed.

Lemma store_set_twice {A : Type} (l : list A) (p : nat) (a b : A) :
  store_set (store_set l p a) p b = store_set l p b.
Proof.
  revert p; induction l as [|x l IH]; intros [|p]; simpl;
    try reflexivity. rewrite IH. reflexivity.
Qed.

Lemma store_set_same_value {A : Type} (l : list A) (p : nat) (v : A) :
  nth_error l p = Some v -> store_set l p v = l.
Proof.
  revert p; induction l as [|x l IH]; intros [|p] H; simpl in *;
    try discriminate; try reflexivity.
  - injection H as ->. reflexivity.
  - rewrite (IH _ H). reflexivity.
Qed.

(** X11: Run followed by its task is a round trip on the wait groups:
    however the task ends, by return or by panic, all wait groups are
    afterwards what they were before Run, and the task has started no task
    of its own. *)
Theorem Run_then_task_restores_the_wait_groups
        (E : Env) (s : ServerPtr) (wg : WaitGroupPtr) (w : World) (n : Z) :
  nth_error (waitGroups w) wg = Some n -> 0 <= n ->
  exists w1,
    Run s wg w = (Ret tt, w1)
    /\ waitGroups (snd (runTask E (AcceptLoopTask s wg) w1)) = waitGroups w
    /\ goroutines (snd (runTask E (AcceptLoopTask s wg) w1)) = goroutines w1.
Proof.
  intros Hwg Hn. eexists. split; [ exact (Run_step s wg w n Hwg Hn) | ].
  match goal with |- context [runTask E _ ?x] => set (w1 := x) end.
  split.
  - unfold runTask.
    match goal with
    | |- context [defer_ _ ?b w1] =>
        assert (F : frames waitGroups b)
          by (unfold log_Panicf; frame; apply frames_serve;
              intros ? ?; reflexivity);
        specialize (F w1); destruct (b w1) as [o w2] eqn:Hbody
    end.
    cbn [snd] in F.
    assert (Hwg2 : nth_error (waitGroups w2) wg = Some (n + 1)).
    { rewrite F. cbn [w1 waitGroups]. eapply store_set_same; exact Hwg. }
    rewrite (deferred_Done_outcome wg _ w1 w2 o (n + 1) Hbody Hwg2)
      by lia.
    cbn [snd waitGroups with_waitGroups]. rewrite F. cbn [w1 waitGroups].
    rewrite store_set_twice. replace (n + 1 + -1) with n by lia.
    apply store_set_same_value. exact Hwg.
  - exact (frames_runTask E goroutines (fun _ _ => eq_refl)
             (AcceptLoopTask s wg) (fun _ _ => eq_refl) w1).
Qed.

(** ** The further properties on the concrete deployment *)

Lemma http_serves_plaintext_witness :
  let E := Example.env false (Errorf "accept tcp: use of closed socket") in
  let w := Example.constructed false ErrServerClosed
                               "http" "/etc/udr/udr.pem" "/etc/udr/udr.key" in
  fst (serve E 0%nat w) = Ret (Some (Errorf "accept tcp: use of closed socket"))
  /\ trace (snd (serve E 0%nat w)) = trace w ++ [EvListenAndServe 0%nat].
Proof.
  intros E w.
  rewrite (http_serves_plaintext
             E 0%nat (finishedServer E 0%nat (Some 0%nat)) 0%nat
             {| Addr := "127.0.0.4:8000";
                Handler := routerOf E (allocatedServer E 0%nat);
                KeyLogPath := ""; inShutdown := false |}
             w eq_refl eq_refl eq_refl eq_refl eq_refl).
  split; reflexivity.
Defined.

Lemma NewServer_returns_a_fresh_server_on_a_fresh_handle_witness :
  let E := Example.env false ErrServerClosed in
  let w := Example.initial "https" "" "" in
  let w1 := Example.constructed false ErrServerClosed "https" "" "" in
  exists sv h srv,
    nth_error (servers w1) 0%nat = Some sv
    /\ httpServer sv = Some h
    /\ nth_error (httpServers w1) h = Some srv
    /\ Addr srv = "127.0.0.4:8000"
    /\ trace w1 = [EvNewHttp2Server "127.0.0.4:8000" ""].
Proof.
  intros E w w1.
  destruct (NewServer_returns_a_fresh_server_on_a_fresh_handle
              E 0%nat "" w w1 0%nat eq_refl eq_refl)
    as (sv & h & srv & Hsv & _ & _ & Hh & _ & Hsrv & _ & Haddr & _ & Htrace).
  exists sv, h, srv. repeat split; assumption.
Defined.

Lemma Run_repeated_registers_each_time_witness :
  let w := Example.constructed false ErrServerClosed "http" "" "" in
  exists w',
    times 2 (Run 0%nat 0%nat) w = (Ret tt, w')
    /\ nth_error (waitGroups w') 0%nat = Some 2
    /\ goroutines w' = [AcceptLoopTask 0%nat 0%nat; AcceptLoopTask 0%nat 0%nat].
Proof.
  intros w.
  assert (Hpos : 0 <= 0) by lia.
  destruct (Run_repeated_registers_each_time 0%nat 0%nat 2 w 0 eq_refl Hpos)
    as (w' & Hrun & Hwg & Hgo & _).
  exists w'. split; [ exact Hrun | ]. split; [ exact Hwg | exact Hgo ].
Defined.

Lemma task_after_Shutdown_exits_quietly_witness :
  let E := Example.env false (Errorf "accept tcp: use of closed socket") in
  let w := Example.running false ErrServerClosed "https" "" "" in
  exists w1 w2,
    Shutdown E 0%nat w = (Ret tt, w1)
    /\ runTask E (AcceptLoopTask 0%nat 0%nat) w1 = (Ret tt, w2)
    /\ nth_error (waitGroups w2) 0%nat = Some 0.
Proof.
  intros E w.
  assert (Hone : 0 < 1) by lia.
  destruct (task_after_Shutdown_exits_quietly
              E 0%nat (finishedServer E 0%nat (Some 0%nat)) 0%nat
              {| Addr := "127.0.0.4:8000";
                 Handler := routerOf E (allocatedServer E 0%nat);
                 KeyLogPath := ""; inShutdown := false |}
              0%nat 1 w eq_refl eq_refl eq_refl (or_intror eq_refl)
              eq_refl Hone)
    as (w1 & w2 & Hshut & Htask & _ & _ & Hwg).
  exists w1, w2. split; [ exact Hshut | ]. split; [ exact Htask | exact Hwg ].
Defined.

Lemma Shutdown_touches_only_its_handle_witness :
  let E := Example.env false ErrServerClosed in
  let w := snd (NewServer E 0%nat ""
                  (Example.constructed false ErrServerClosed "http" "" "")) in
  handleClosed (snd (Shutdown E 0%nat w)) 0%nat = true
  /\ handleClosed (snd (Shutdown E 0%nat w)) 1%nat = false.
Proof.
  intros E w.
  destruct (Shutdown_touches_only_its_handle
              E 0%nat (finishedServer E 0%nat (Some 0%nat)) 0%nat
              {| Addr := "127.0.0.4:8000";
                 Handler := routerOf E (allocatedServer E 0%nat);
                 KeyLogPath := ""; inShutdown := false |}
              w eq_refl eq_refl eq_refl)
    as (_ & _ & _ & _ & _ & _ & _ & Hothers).
  split; [ reflexivity | ].
  assert (Hne : 1%nat <> 0%nat) by discriminate.
  rewrite (Hothers 1%nat (finishedServer E 0%nat (Some 1%nat)) 1%nat
                   eq_refl eq_refl Hne).
  reflexivity.
Defined.

Lemma serve_without_handle_panics_witness :
  let E := Example.env false ErrServerClosed in
  let w := snd (NewServer E 0%nat "/proc/keylog"
                          (Example.initial "http" "" "")) in
  serve E 0%nat w = (Panic nilDereference, w)
  /\ Shutdown E 0%nat w = (Ret tt, w).
Proof.
  intros E w.
  destruct (serve_without_handle_panics
              E 0%nat (finishedServer E 0%nat None) w
              eq_refl eq_refl (or_introl eq_refl))
    as (Hserve & Hshut & _).
  split; [ exact Hserve | exact Hshut ].
Defined.

Lemma Processor_returns_the_constructed_processor_witness :
  let E := Example.env false ErrServerClosed in
  let w1 := Example.constructed false ErrServerClosed "http" "" "" in
  Processor 0%nat w1 = (Ret (Some 0%nat), w1)
  /\ fst (Processor 0%nat (snd (Shutdown E 0%nat w1))) = Ret (Some 0%nat).
Proof.
  intros E w1.
  destruct (Processor_returns_the_constructed_processor
              E 0%nat "" (Example.initial "http" "" "") w1 0%nat eq_refl)
    as (Hnow & Hlater).
  split; [ exact Hnow | exact (proj1 (proj2 (Hlater 0%nat))) ].
Defined.

Lemma NewServer_depends_on_address_only_witness :
  let E := Example.env false ErrServerClosed in
  fst (NewServer E 0%nat "" (Example.initial "ftp" "" ""))
  = fst (NewServer E 0%nat "" (Example.initial "https" "a.pem" "a.key")).
Proof.
  intros E.
  exact (proj1 (NewServer_depends_on_address_only
                  E 0%nat ""
                  (Example.initial "ftp" "" "")
                  (Example.initial "https" "a.pem" "a.key")
                  eq_refl eq_refl eq_refl eq_refl)).
Defined.

Lemma Run_then_task_restores_the_wait_groups_witness :
  let E := Example.env false (Errorf "listen tcp 127.0.0.4:8000: bind: address already in use") in
  let w := Example.constructed false ErrServerClosed "http" "" "" in
  exists w1,
    Run 0%nat 0%nat w = (Ret tt, w1)
    /\ waitGroups (snd (runTask E (AcceptLoopTask 0%nat 0%nat) w1)) = [0].
Proof.
  intros E w.
  assert (Hpos : 0 <= 0) by lia.
  destruct (Run_then_task_restores_the_wait_groups
              E 0%nat 0%nat w 0 eq_refl Hpos)
    as (w1 & Hrun & Hwg & _).
  exists w1. split; [ exact Hrun | exact Hwg ].
Defined.

(** ** Where a bind failure surfaces *)

Lemma serve_on_open_handle (E : Env) (s : ServerPtr) (sv : Server)
      (h : HttpPtr) (srv : http_Server) (w : World) :
  nth_error (servers w) s = Some sv ->
  httpServer sv = Some h ->
  nth_error (httpServers w) h = Some srv ->
  inShutdown srv = false ->
  Scheme (sbiOf w (Server_Udr sv)) = "http"
  \/ Scheme (sbiOf w (Server_Udr sv)) = "https" ->
  exists ev,
    (ev = EvListenAndServe h
     \/ exists certFile keyFile, ev = EvListenAndServeTLS h certFile keyFile)
    /\ serve E s w =
       (Ret (Some (acceptLoopResult E h (trace w ++ [ev]))),
        with_trace w (trace w ++ [ev])).
Proof.
  intros Hs Hh Hsrv Hopen [Hscheme | Hscheme].
  - exists (EvListenAndServe h). split; [ left; reflexivity | ].
    rewrite (serve_http E s sv w Hs Hscheme).
    unfold unsecureServe, bind. rewrite (derefServer_ok _ _ _ Hs), Hh.
    unfold ListenAndServe, bind. rewrite (derefHttp_ok _ _ _ Hsrv), Hopen.
    reflexivity.
  - eexists. split; [ right; do 2 eexists; reflexivity | ].
    rewrite (serve_https E s sv w Hs Hscheme).
    unfold secureServe, bind. rewrite (derefServer_ok _ _ _ Hs).
    unfold Config. cbn [ret]. rewrite Hh.
    unfold ListenAndServeTLS, bind. rewrite (derefHttp_ok _ _ _ Hsrv), Hopen.
    reflexivity.
Qed.

(** C7 as stated fails: the address is in use, so that the listen will
    fail, and NewServer returns server 0 all the same, without having asked
    for a socket; the failure comes back from serve. *)
Lemma NewServer_returns_when_the_address_is_in_use :
  let inUse :=
    Errorf "listen tcp 127.0.0.4:8000: bind: address already in use" in
  let E := Example.env false inUse in
  let w := Example.initial "http" "" "" in
  fst (NewServer E 0%nat "" w) = Ret 0%nat
  /\ listenCalls (trace (snd (NewServer E 0%nat "" w))) = 0%nat
  /\ fst (serve E 0%nat (snd (NewServer E 0%nat "" w))) = Ret (Some inUse).
Proof. intros inUse E w. repeat split. Qed.

(** C7, as the code has it: NewServer asks for no socket and starts no
    task.  An error that bindRouter returns (it comes from the wrapper that
    makes the server object) is fatal: it is logged at error level and
    NewServer panics with "Server initialization failed" instead of
    returning a server.  Without such an error NewServer returns the server,
    whether or not the address can be bound: the listen is made by the
    accept-loop task, and the error it gives is logged there at panic level
    and escalated with a panic. *)
Theorem bind_failure_surfaces_in_the_task
        (E : Env) (udr : Udr) (k : string) (w : World) :
  let s := List.length (servers w) in
  let h := List.length (httpServers w) in
  let w1 := afterNewServer E udr k w in
  listenCalls (trace w1) = listenCalls (trace w)
  /\ goroutines w1 = goroutines w
  /\ (forall e,
        snd (newHttp2ServerResult E (bindAddrOf w udr) k) = Some e ->
        NewServer E udr k w
        = (Panic (PanicString "Server initialization failed"), w1)
        /\ trace w1 =
           trace w ++
             [EvNewHttp2Server (bindAddrOf w udr) k;
              EvLog SBILog ErrorLevel
                    ("bind Router Error: " ++ Error e)%string])
  /\ (snd (newHttp2ServerResult E (bindAddrOf w udr) k) = None ->
      NewServer E udr k w = (Ret s, w1))
  /\ (newHttp2ServerResult E (bindAddrOf w udr) k = (true, None) ->
      Scheme (sbiOf w udr) = "http" \/ Scheme (sbiOf w udr) = "https" ->
      forall (wg : WaitGroupPtr) (n : Z),
        nth_error (waitGroups w1) wg = Some n -> 0 <= n ->
        let w2 := snd (Run s wg w1) in
        exists ev,
          (ev = EvListenAndServe h
           \/ exists certFile keyFile,
               ev = EvListenAndServeTLS h certFile keyFile)
          /\ let e := acceptLoopResult E h (trace w2 ++ [ev]) in
             let msg := ("HTTP server setup failed: " ++ Error e)%string in
             e <> ErrServerClosed ->
             exists w3,
               runTask E (AcceptLoopTask s wg) w2
               = (Panic (PanicLogEntry msg), w3)
               /\ trace w3 = trace w2 ++ [ev; EvLog SBILog PanicLevel msg]).
Proof.
  intros s h w1.
  split; [ apply afterNewServer_no_listen | ].
  split; [ reflexivity | ].
  split; [ | split ].
  - intros e He. rewrite NewServer_runs, He.
    split; [ reflexivity | ].
    unfold w1, afterNewServer. cbn [trace]. rewrite He. reflexivity.
  - intro Hnil. rewrite NewServer_runs, Hnil. reflexivity.
  - intros Hres Hscheme wg n Hwg Hn w2.
    pose proof (Run_step s wg w1 n Hwg Hn) as Hstep.
    assert (Hs : nth_error (servers w2) s
                 = Some (finishedServer E udr (Some h))).
    { unfold w2. rewrite Hstep. cbn [snd servers].
      unfold w1, afterNewServer. cbn [servers]. rewrite Hres. cbn [fst].
      apply nth_error_alloc. }
    assert (Hsrv : nth_error (httpServers w2) h
                   = Some {| Addr := bindAddrOf w udr;
                             Handler := routerOf E (allocatedServer E udr);
                             KeyLogPath := k; inShutdown := false |}).
    { unfold w2. rewrite Hstep. cbn [snd httpServers].
      unfold w1, afterNewServer. cbn [httpServers]. rewrite Hres. cbn [fst].
      apply nth_error_alloc. }
    assert (Hwg2 : nth_error (waitGroups w2) wg = Some (n + 1)).
    { unfold w2. rewrite Hstep. cbn [snd waitGroups].
      eapply store_set_same; exact Hwg. }
    assert (Hscheme2 :
              Scheme (sbiOf w2 udr) = "http" \/ Scheme (sbiOf w2 udr) = "https").
    { unfold w2. rewrite Hstep. exact Hscheme. }
    destruct (serve_on_open_handle E s _ h _ w2 Hs eq_refl Hsrv eq_refl Hscheme2)
      as (ev & Hev & Hserve).
    exists ev. split; [ exact Hev | ].
    intros e msg He. eexists. split.
    + unfold runTask.
      eapply (deferred_Done_outcome wg _ w2 _ _ (n + 1));
        [ unfold bind; rewrite Hserve;
          rewrite not_closed_error
            by (intro Heq; injection Heq as Heq; exact (He Heq));
          reflexivity
        | exact Hwg2 | lia ].
    + cbn [trace with_waitGroups with_trace]. rewrite <- app_assoc. reflexivity.
Qed.

Lemma bind_failure_surfaces_in_the_task_witness :
  let inUse :=
    Errorf "listen tcp 127.0.0.4:8000: bind: address already in use" in
  let E := Example.env false inUse in
  let w := Example.initial "http" "" "" in
  (exists w1,
      NewServer E 0%nat "/proc/keylog" w
      = (Panic (PanicString "Server initialization failed"), w1)
      /\ trace w1 =
         [EvNewHttp2Server "127.0.0.4:8000" "/proc/keylog";
          EvLog SBILog ErrorLevel
                "bind Router Error: create pre-master-secret log [/proc/keylog] fail"])
  /\ exists w1 w3,
      NewServer E 0%nat "" w = (Ret 0%nat, w1)
      /\ runTask E (AcceptLoopTask 0%nat 0%nat) (snd (Run 0%nat 0%nat w1))
         = (Panic (PanicLogEntry
                     "HTTP server setup failed: listen tcp 127.0.0.4:8000: bind: address already in use"),
            w3).
Proof.
  intros inUse E w. split.
  - destruct (bind_failure_surfaces_in_the_task E 0%nat "/proc/keylog" w)
      as (_ & _ & Hfatal & _).
    destruct (Hfatal
                (Errorf "create pre-master-secret log [/proc/keylog] fail")
                eq_refl) as (Hrun & Htrace).
    eexists. split; [ exact Hrun | exact Htrace ].
  - destruct (bind_failure_surfaces_in_the_task E 0%nat "" w)
      as (_ & _ & _ & Hreturns & Htask).
    assert (Hzero : 0 <= 0) by lia.
    destruct (Htask eq_refl (or_introl eq_refl) 0%nat 0 eq_refl Hzero)
      as (ev & _ & Hpanic).
    assert (Hne : inUse <> ErrServerClosed) by discriminate.
    destruct (Hpanic Hne) as (w3 & Hrun & _).
    exists (afterNewServer E 0%nat "" w), w3.
    split; [ exact (Hreturns eq_refl) | exact Hrun ].
Defined.
